(** * A shallow embedding of [server.js]

    The admissions backend is an Express application whose handlers are
    [async] functions over one MySQL connection.  The embedding keeps that
    shape: JavaScript values are an inductive type, a handler is a
    computation in a state-and-exception monad over a [World] that holds
    the database tables, the uploads directory and the responses written
    so far, and the routing table lists the handlers in the order
    [server.js] binds them. *)

From Stdlib Require Import ZArith List String Ascii Bool Lia DecimalString.
From Stdlib Require DecimalPos DecimalZ.
Import ListNotations.
Local Open Scope string_scope.
Local Open Scope list_scope.
Local Set Warnings "-register-all".

(** ** JavaScript values *)

(** What [JSON.parse] can produce, plus [undefined].  Numbers are the
    integers; nothing below depends on fractions. *)
Inductive value : Type :=
| VUndef
| VNull
| VBool (b : bool)
| VNum (n : Z)
| VStr (s : string)
| VArr (xs : list value)
| VObj (fields : list (string * value)).

(** Exceptions a handler can meet. *)
Inductive exn : Type :=
| TypeError (msg : string)
| ReferenceError (msg : string)
| DbError (code : string)
| FileTypeError (msg : string)
| MulterError (code : string).

(** ToBoolean *)
Definition truthy (v : value) : bool :=
  match v with
  | VUndef | VNull => false
  | VBool b => b
  | VNum n => negb (n =? 0)%Z
  | VStr s => negb (s =? "")
  | VArr _ | VObj _ => true
  end.

(** [!v] *)
Definition js_not (v : value) : bool := negb (truthy v).

(** [a || b] *)
Definition js_or (a b : value) : value := if truthy a then a else b.

(** Lookup in the fields of an object; an absent key reads [undefined]. *)
Fixpoint lookup (k : string) (fields : list (string * value)) : value :=
  match fields with
  | [] => VUndef
  | (k', v) :: rest => if k' =? k then v else lookup k rest
  end.

(** [o.k]: reading a property of [undefined] or [null] throws, an object
    gives the field, and the properties read in [server.js] are not
    defined on the other values. *)
Definition get_prop (o : value) (k : string) : exn + value :=
  match o with
  | VUndef => inl (TypeError "Cannot read properties of undefined")
  | VNull => inl (TypeError "Cannot read properties of null")
  | VObj fields => inr (lookup k fields)
  | _ => inr VUndef
  end.

(** [new Array(n).fill(v)] *)
Definition Array_fill (n : nat) (v : value) : list value := repeat v n.

(** [xs[i] = v]: an index at or past the end extends the array. *)
Fixpoint js_set (xs : list value) (i : nat) (v : value) : list value :=
  match i, xs with
  | O, [] => [v]
  | O, _ :: t => v :: t
  | S i', [] => VUndef :: js_set [] i' v
  | S i', x :: t => x :: js_set t i' v
  end.

(** Decimal rendering and reading of integers. *)
Definition string_of_Z (z : Z) : string := NilZero.string_of_int (Z.to_int z).

Definition Z_of_string (s : string) : option Z :=
  option_map Z.of_int (NilZero.int_of_string s).

(** [s.includes(pat)], the meaning of an unanchored literal pattern. *)
Fixpoint includes (pat s : string) : bool :=
  prefix pat s ||
  match s with
  | EmptyString => false
  | String _ rest => includes pat rest
  end.

(** ** The world a handler runs in *)

Definition Row := list (string * value).

Record Table := mkTable { rows : list Row; next_id : Z }.

Inductive table_name :=
| Users | Institutions | Faculties | Courses | Applications | Admissions.

Record DB := mkDB {
  users : Table;
  institutions : Table;
  faculties : Table;
  courses : Table;
  applications : Table;
  admissions : Table
}.

Definition get_table (t : table_name) (d : DB) : Table :=
  match t with
  | Users => users d
  | Institutions => institutions d
  | Faculties => faculties d
  | Courses => courses d
  | Applications => applications d
  | Admissions => admissions d
  end.

Definition set_table (t : table_name) (x : Table) (d : DB) : DB :=
  match t with
  | Users => mkDB x (institutions d) (faculties d) (courses d) (applications d) (admissions d)
  | Institutions => mkDB (users d) x (faculties d) (courses d) (applications d) (admissions d)
  | Faculties => mkDB (users d) (institutions d) x (courses d) (applications d) (admissions d)
  | Courses => mkDB (users d) (institutions d) (faculties d) x (applications d) (admissions d)
  | Applications => mkDB (users d) (institutions d) (faculties d) (courses d) x (admissions d)
  | Admissions => mkDB (users d) (institutions d) (faculties d) (courses d) (applications d) x
  end.

Record Response := mkResponse { status : Z; json : value }.

(** [faults] is the schedule of the connection: each call of [query]
    takes its head, and [true] makes that call fail with a database
    error.  [clock] is what [Date.now()] reads, [entropy] feeds the salt
    of [bcrypt.hash], [disk] lists the files written under [uploads/],
    and [sent] lists the responses written, oldest first. *)
Record World := mkWorld {
  db : DB;
  faults : list bool;
  clock : Z;
  entropy : list nat;
  disk : list string;
  sent : list Response
}.

Definition set_db (d : DB) (w : World) : World :=
  mkWorld d (faults w) (clock w) (entropy w) (disk w) (sent w).
Definition set_faults (f : list bool) (w : World) : World :=
  mkWorld (db w) f (clock w) (entropy w) (disk w) (sent w).
Definition set_entropy (e : list nat) (w : World) : World :=
  mkWorld (db w) (faults w) (clock w) e (disk w) (sent w).
Definition set_disk (fs : list string) (w : World) : World :=
  mkWorld (db w) (faults w) (clock w) (entropy w) fs (sent w).
Definition set_sent (rs : list Response) (w : World) : World :=
  mkWorld (db w) (faults w) (clock w) (entropy w) (disk w) rs.

(** ** The handler monad: state and exceptions

    An exception keeps the world reached so far: what a query committed
    before the throw stays committed. *)
Definition M (A : Type) : Type := World -> (exn + A) * World.

Definition ret {A} (a : A) : M A := fun w => (inr a, w).

Definition bind {A B} (m : M A) (k : A -> M B) : M B :=
  fun w =>
    match m w with
    | (inr a, w') => k a w'
    | (inl e, w') => (inl e, w')
    end.

Definition throw {A} (e : exn) : M A := fun w => (inl e, w).

(** [try { m } catch (err) { h err }] *)
Definition try_catch {A} (m : M A) (h : exn -> M A) : M A :=
  fun w =>
    match m w with
    | (inr a, w') => (inr a, w')
    | (inl e, w') => h e w'
    end.

Definition lift {A} (r : exn + A) : M A :=
  match r with
  | inl e => throw e
  | inr a => ret a
  end.

Declare Scope js_scope.
Delimit Scope js_scope with js.
Notation "x <- c ;; k" := (bind c (fun x => k))
  (at level 61, c at next level, right associativity) : js_scope.
Notation "c ;;; k" := (bind c (fun _ => k))
  (at level 61, right associativity) : js_scope.
Local Open Scope js_scope.

(** [res.status(s).json(b)] *)
Definition res_json (s : Z) (b : value) : M unit :=
  fun w => (inr tt, set_sent (sent w ++ [mkResponse s b]) w).

(** [Date.now()] *)
Definition Date_now : M Z := fun w => (inr (clock w), w).

(** ** The MySQL connection

    The statements of [server.js] fall into four shapes.  A [?] of the
    statement text is a [Placeholder]; a quoted constant is a [Literal]. *)
Inductive sql_expr :=
| Placeholder
| Literal (v : value).

Inductive statement :=
| SelectAll (t : table_name)
| SelectWhere (t : table_name) (col : string)
| InsertInto (t : table_name) (cols : list string) (vals : list sql_expr)
| DeleteWhere (t : table_name) (col : string).

(** What the promisified [query] resolves to: the rows of a SELECT, or
    the OK packet of an INSERT or DELETE. *)
Inductive qresult :=
| QRows (rs : list Row)
| QOk (affectedRows : Z) (insertId : Z).

(** The driver writes [undefined] and [null] as NULL. *)
Definition to_sql (v : value) : value :=
  match v with
  | VUndef => VNull
  | _ => v
  end.

(** The driver replaces the placeholders from left to right with the
    parameters; parameters left over are ignored, and a placeholder left
    without a parameter stays in the text, which the server refuses. *)
Fixpoint bind_values (vals : list sql_expr) (params : list value) : option (list value) :=
  match vals with
  | [] => Some []
  | Literal v :: rest => option_map (cons v) (bind_values rest params)
  | Placeholder :: rest =>
      match params with
      | [] => None
      | p :: params' => option_map (cons (to_sql p)) (bind_values rest params')
      end
  end.

(** [col = ?] in a WHERE clause: NULL equals nothing, and a string
    compared with a number is read as a number. *)
Definition sql_eq (a b : value) : bool :=
  match a, b with
  | VNum x, VNum y => (x =? y)%Z
  | VStr s, VStr t => s =? t
  | VNum x, VStr s | VStr s, VNum x =>
      match Z_of_string s with
      | Some y => (x =? y)%Z
      | None => false
      end
  | VBool x, VBool y => Bool.eqb x y
  | _, _ => false
  end.

Definition matches (col : string) (p : value) (r : Row) : bool :=
  sql_eq (lookup col r) (to_sql p).

(** The server's side of one statement: the result and the tables after
    it, or the error it reports. *)
Definition exec (q : statement) (params : list value) (d : DB) : exn + (qresult * DB) :=
  match q with
  | SelectAll t => inr (QRows (rows (get_table t d)), d)
  | SelectWhere t col =>
      match params with
      | [] => inl (DbError "ER_PARSE_ERROR")
      | p :: _ => inr (QRows (filter (matches col p) (rows (get_table t d))), d)
      end
  | InsertInto t cols vals =>
      match bind_values vals params with
      | None => inl (DbError "ER_PARSE_ERROR")
      | Some vs =>
          if negb (List.length cols =? List.length vs)%nat
          then inl (DbError "ER_WRONG_VALUE_COUNT_ON_ROW")
          else
            let tb := get_table t d in
            let r := ("id", VNum (next_id tb)) :: combine cols vs in
            inr (QOk 1 (next_id tb),
                 set_table t (mkTable (rows tb ++ [r]) (next_id tb + 1)) d)
      end
  | DeleteWhere t col =>
      match params with
      | [] => inl (DbError "ER_PARSE_ERROR")
      | p :: _ =>
          let tb := get_table t d in
          let gone := filter (matches col p) (rows tb) in
          let kept := filter (fun r => negb (matches col p r)) (rows tb) in
          inr (QOk (Z.of_nat (List.length gone)) 0,
               set_table t (mkTable kept (next_id tb)) d)
      end
  end.

(** [const query = promisify(db.query).bind(db)].  There is no
    transaction anywhere in [server.js]: a statement that succeeds is
    committed when [query] resolves. *)
Definition query (q : statement) (params : list value) : M qresult :=
  fun w =>
    let w' := set_faults (tl (faults w)) w in
    match faults w with
    | true :: _ => (inl (DbError "ER_CONNECTION"), w')
    | _ =>
        match exec q params (db w) with
        | inl e => (inl e, w')
        | inr (r, d') => (inr r, set_db d' w')
        end
    end.

(** [data.length], [data[0]] and [result.affectedRows], [result.insertId]
    on what [query] resolved to. *)
Definition result_rows (r : qresult) : list Row :=
  match r with
  | QRows rs => rs
  | QOk _ _ => []
  end.

Definition affectedRows (r : qresult) : Z :=
  match r with
  | QOk n _ => n
  | QRows _ => 0
  end.

Definition insertId (r : qresult) : value :=
  match r with
  | QOk _ i => VNum i
  | QRows _ => VUndef
  end.

(** ** bcrypt

    The library is an interface here; what a theorem needs of it is a
    hypothesis of that theorem. *)
Class Bcrypt := {
  bcrypt_hash_string : string -> nat -> string;
  bcrypt_compare_string : string -> string -> bool
}.

Section WithBcrypt.
Context {B : Bcrypt}.

(** [bcrypt.hash(data, 10)] draws a salt; a [data] that is no string is
    refused. *)
Definition bcrypt_hash (data : value) : M value :=
  fun w =>
    match data with
    | VStr p =>
        (inr (VStr (bcrypt_hash_string p (hd O (entropy w)))),
         set_entropy (tl (entropy w)) w)
    | _ => (inl (TypeError "data must be a string or Buffer"), w)
    end.

(** [bcrypt.compare(data, encrypted)] *)
Definition bcrypt_compare (data encrypted : value) : M bool :=
  match data, encrypted with
  | VStr p, VStr h => ret (bcrypt_compare_string p h)
  | _, _ => throw (TypeError "data and hash must be strings")
  end.

End WithBcrypt.

(** ** Requests and the upload middleware *)

Inductive http_method := GET | POST | PUT | DELETE.

Record FilePart := mkFilePart {
  fieldname : string;
  originalname : string;
  mimetype : string
}.

(** [path] is the URL split at its slashes.  [part] is the file part of
    a multipart body when there is one.  [params] and [file] are what
    the router and multer add: [req.params] and [req.file.path]. *)
Record Request := mkRequest {
  method : http_method;
  path : list string;
  body : list (string * value);
  part : option FilePart;
  params : list (string * value);
  file : option string
}.

Definition set_file (p : string) (req : Request) : Request :=
  mkRequest (method req) (path req) (body req) (part req) (params req) (Some p).
Definition set_params (ps : list (string * value)) (req : Request) : Request :=
  mkRequest (method req) (path req) (body req) (part req) ps (file req).

(** [const filetypes = /jpeg|jpg|png|gif/; filetypes.test(s)] *)
Definition filetypes_test (s : string) : bool :=
  includes "jpeg" s || includes "jpg" s || includes "png" s || includes "gif" s.

(** The [fileFilter] of [upload]: [true] is [cb(null, true)], an error is
    [cb(new Error(...))]. *)
Definition fileFilter (f : FilePart) : exn + bool :=
  let mimetype := filetypes_test (mimetype f) in
  if mimetype then inr true
  else inl (FileTypeError "Invalid file type. Only JPEG, PNG, and GIF are allowed.").

(** The two callbacks of [multer.diskStorage]. *)
Definition destination : string := "uploads/".

Definition filename (f : FilePart) : M string :=
  now <- Date_now ;;
  ret (string_of_Z now ++ "_" ++ originalname f)%string.

Definition write_file (p : string) : M unit :=
  fun w => (inr tt, set_disk (disk w ++ [p]) w).

(** [upload.single(field)]: a request without a file part passes
    through; a part under another field name is refused; otherwise the
    filter decides, and only an accepted file is written and becomes
    [req.file]. *)
Definition upload_single (field : string) (req : Request) : M Request :=
  match part req with
  | None => ret req
  | Some f =>
      if negb (fieldname f =? field)
      then throw (MulterError "LIMIT_UNEXPECTED_FILE")
      else
        _ <- lift (fileFilter f) ;;
        name <- filename f ;;
        let p := (destination ++ name)%string in
        write_file p ;;;
        ret (set_file p req)
  end.

(** ** The handlers *)

Definition error_body (msg : string) : value := VObj [("error", VStr msg)].
Definition message_body (msg : string) : value := VObj [("message", VStr msg)].

(** [req.file] as a value. *)
Definition req_file (req : Request) : value :=
  match file req with
  | Some p => VObj [("path", VStr p)]
  | None => VUndef
  end.

Section Accounts.
Context {B : Bcrypt}.

(** [app.post('/register', upload.single('profilePicture'), ...)] *)
Definition register (req : Request) : M unit :=
  let name := lookup "name" (body req) in
  let email := lookup "email" (body req) in
  let password := lookup "password" (body req) in
  let user_type := lookup "user_type" (body req) in
  if js_not name || js_not email || js_not password || js_not user_type
     || js_not (req_file req)
  then res_json 400 (error_body
         "Please provide name, email, password, user_type, and a profile picture.")
  else
    hashedPassword <- bcrypt_hash password ;;
    let sql := InsertInto Users
                 ["name"; "email"; "password"; "user_type"; "profile_picture"]
                 [Placeholder; Placeholder; Placeholder; Placeholder; Placeholder] in
    try_catch
      (file_path <- lift (get_prop (req_file req) "path") ;;
       query sql [name; email; hashedPassword; user_type; file_path] ;;;
       res_json 201 (message_body "User registered successfully."))
      (fun err => res_json 500 (error_body "Database error during registration.")).

(** [app.post('/login', ...)] *)
Definition login (req : Request) : M unit :=
  let email := lookup "email" (body req) in
  let password := lookup "password" (body req) in
  if js_not email || js_not password
  then res_json 400 (error_body "Please provide both email and password.")
  else
    let sql := SelectWhere Users "email" in
    try_catch
      (data <- query sql [email] ;;
       match result_rows data with
       | user :: _ =>
           isPasswordValid <- bcrypt_compare password (lookup "password" user) ;;
           if isPasswordValid
           then res_json 200
                  (VObj [("message", VStr "Login successful");
                         ("user", VObj [("id", lookup "id" user);
                                        ("user_type", lookup "user_type" user);
                                        ("name", lookup "name" user);
                                        ("email", lookup "email" user);
                                        ("profile_picture", lookup "profile_picture" user)])])
           else res_json 401 (error_body "Invalid email or password.")
       | [] => res_json 401 (error_body "Invalid email or password.")
       end)
      (fun err => res_json 500 (error_body "Database query error.")).

End Accounts.

(** [app.delete('/institutions/:id', ...)] *)
Definition deleteInstitution (req : Request) : M unit :=
  let institutionId := lookup "id" (params req) in
  let sql := DeleteWhere Institutions "id" in
  try_catch
    (result <- query sql [institutionId] ;;
     if (affectedRows result >? 0)%Z
     then res_json 200 (message_body "Institution deleted successfully.")
     else res_json 404 (error_body "Institution not found."))
    (fun err => res_json 500 (error_body "Database error during deleting institution.")).

(** [arr.forEach(cb)]: the callback gets the element and its index, and
    updates the variables it closes over, here the state [st].  A
    receiver that is no array has no [forEach] to call. *)
Fixpoint forEach_from {S : Type} (cb : value -> nat -> S -> exn + S)
    (xs : list value) (index : nat) (st : S) : exn + S :=
  match xs with
  | [] => inr st
  | x :: rest =>
      match cb x index st with
      | inl e => inl e
      | inr st' => forEach_from cb rest (Datatypes.S index) st'
      end
  end.

Definition forEach {S : Type} (arr : value) (cb : value -> nat -> S -> exn + S)
    (st : S) : exn + S :=
  match arr with
  | VArr xs => forEach_from cb xs 0 st
  | VUndef => inl (TypeError "Cannot read properties of undefined (reading 'forEach')")
  | VNull => inl (TypeError "Cannot read properties of null (reading 'forEach')")
  | _ => inl (TypeError "grades.forEach is not a function")
  end.

(** The callback of both application handlers, on the pair
    [(subjects, gradesValues)]:
    [subjects[index] = grade.subject || '';
     gradesValues[index] = grade.grade || '';] *)
Definition store_grade (grade : value) (index : nat)
    (st : list value * list value) : exn + (list value * list value) :=
  match get_prop grade "subject" with
  | inl e => inl e
  | inr subject =>
      let subjects := js_set (fst st) index (js_or subject (VStr "")) in
      match get_prop grade "grade" with
      | inl e => inl e
      | inr g => inr (subjects, js_set (snd st) index (js_or g (VStr "")))
      end
  end.

(** The column list and the VALUES list of the 23-column INSERT that
    [/applications] and the first [/apply] spell out. *)
Definition application_columns : list string :=
  ["student_name"; "phone_number"; "student_id"; "university"; "course_id";
   "faculty"; "major_subject";
   "subject1"; "grade1"; "subject2"; "grade2"; "subject3"; "grade3";
   "subject4"; "grade4"; "subject5"; "grade5"; "subject6"; "grade6";
   "subject7"; "grade7"; "subject8"; "grade8"].

Definition application_values : list sql_expr := repeat Placeholder 20.

Definition testData : list value :=
  [VStr "John Doe"; VStr "123456789"; VStr "ST001"; VStr "University X";
   VStr "Course Y"; VStr "Faculty Z"; VStr "Science"; VStr "Math"; VStr "A";
   VStr "English"; VStr "B"; VStr ""; VStr ""; VStr ""; VStr "";
   VStr ""; VStr ""; VStr ""; VStr ""; VStr ""; VStr ""].

(** [testQuery] is declared nowhere in the module: evaluating the
    identifier throws. *)
Definition testQuery : M statement :=
  throw (ReferenceError "testQuery is not defined").

(** [app.post('/applications', ...)] *)
Definition applications_handler (req : Request) : M unit :=
  let studentName := lookup "student_name" (body req) in
  let phoneNumber := lookup "phone_number" (body req) in
  let student_id := lookup "student_id" (body req) in
  let university := lookup "university" (body req) in
  let course_id := lookup "course_id" (body req) in
  let faculty := lookup "faculty" (body req) in
  let majorSubject := lookup "major_subject" (body req) in
  let grades := lookup "grades" (body req) in
  if js_not studentName || js_not phoneNumber || js_not student_id
     || js_not university || js_not course_id || js_not faculty
     || js_not majorSubject || js_not grades
  then res_json 400 (error_body "All fields are required.")
  else
    st <- lift (forEach grades store_grade
                  (Array_fill 8 (VStr ""), Array_fill 8 (VStr ""))) ;;
    let subjects := fst st in
    let gradesValues := snd st in
    let sqlQuery := InsertInto Applications application_columns application_values in
    let params := [studentName; phoneNumber; student_id; university; course_id;
                   faculty; majorSubject] ++ subjects ++ gradesValues in
    try_catch
      (q <- testQuery ;;
       result <- query q testData ;;
       res_json 201 (VObj [("message", VStr "Test insert successful");
                           ("id", insertId result)]))
      (fun err => res_json 500 (error_body "Database error during application submission.")).

(** The parameter array of the first [/apply] handler. *)
Definition apply_params (student_name phone_number student_id university
    course_id faculty major_subject : value) (subjects gradesValues : list value)
    : list value :=
  [student_name; phone_number; student_id; university; course_id; faculty;
   major_subject] ++ subjects ++ gradesValues.

(** [app.post('/apply', ...)], the first binding *)
Definition apply_first (req : Request) : M unit :=
  let student_name := lookup "student_name" (body req) in
  let phone_number := lookup "phone_number" (body req) in
  let student_id := lookup "student_id" (body req) in
  let university := lookup "university" (body req) in
  let course_id := lookup "course_id" (body req) in
  let faculty := lookup "faculty" (body req) in
  let major_subject := lookup "major_subject" (body req) in
  let grades := lookup "grades" (body req) in
  if js_not student_name || js_not phone_number || js_not student_id
     || js_not university || js_not course_id || js_not faculty
     || js_not major_subject
  then res_json 400 (error_body "All fields are required.")
  else
    st <- lift (forEach grades store_grade
                  (Array_fill 8 (VStr ""), Array_fill 8 (VStr ""))) ;;
    let subjects := fst st in
    let gradesValues := snd st in
    let sqlQuery := InsertInto Applications application_columns application_values in
    let params := apply_params student_name phone_number student_id university
                    course_id faculty major_subject subjects gradesValues in
    try_catch
      (result <- query sqlQuery params ;;
       res_json 201 (VObj [("message", VStr "Application submitted successfully");
                           ("application_id", insertId result)]))
      (fun err => res_json 500 (error_body "Database error during application submission.")).

(** [app.post('/apply', ...)], the second binding *)
Definition apply_second (req : Request) : M unit :=
  let student_name := lookup "student_name" (body req) in
  let phone_number := lookup "phone_number" (body req) in
  let student_id := lookup "student_id" (body req) in
  let university := lookup "university" (body req) in
  let course_id := lookup "course_id" (body req) in
  let faculty := lookup "faculty" (body req) in
  let major_subject := lookup "major_subject" (body req) in
  if js_not student_name || js_not student_id || js_not course_id
  then res_json 400 (error_body "Required fields are missing")
  else
    let sqlInsertApplication :=
      InsertInto Applications
        ["student_name"; "phone_number"; "student_id"; "university"; "course_id";
         "faculty"; "major_subject"]
        (repeat Placeholder 7) in
    try_catch
      (result <- query sqlInsertApplication
                   [student_name; phone_number; student_id; university; course_id;
                    faculty; major_subject] ;;
       res_json 201 (VObj [("message", VStr "Application successfully submitted");
                           ("application_id", insertId result)]))
      (fun error => res_json 500 (error_body "Error processing the application")).

(** [for (let x of xs) { body x }] with [await] inside: one element
    after the other, and a throw leaves the loop. *)
Fixpoint for_of {A : Type} (xs : list A) (body : A -> M unit) : M unit :=
  match xs with
  | [] => ret tt
  | x :: rest => body x ;;; for_of rest body
  end.

Definition Array_isArray (v : value) : bool :=
  match v with
  | VArr _ => true
  | _ => false
  end.

Definition elements (v : value) : list value :=
  match v with
  | VArr xs => xs
  | _ => []
  end.

Definition insertAdmission : statement :=
  InsertInto Admissions
    ["student_id"; "course_id"; "institution_id"; "faculty_id"; "status"]
    [Placeholder; Placeholder; Placeholder; Placeholder; Literal (VStr "admitted")].

(** The body of the loop of [/publish-admissions]. *)
Definition publish_one (appId : value) : M unit :=
  let applicationQuery := SelectWhere Applications "id" in
  applicationResult <- query applicationQuery [appId] ;;
  match result_rows applicationResult with
  | application :: _ =>
      let student_id := lookup "student_id" application in
      let course_id := lookup "course_id" application in
      query insertAdmission [student_id; course_id; VNull; VNull] ;;;
      ret tt
  | [] => ret tt
  end.

(** [app.post('/publish-admissions', ...)] *)
Definition publishAdmissions (req : Request) : M unit :=
  let application_ids := lookup "application_ids" (body req) in
  if js_not application_ids || negb (Array_isArray application_ids)
     || (List.length (elements application_ids) =? 0)%nat
  then res_json 400 (error_body "No application IDs provided to process.")
  else
    try_catch
      (for_of (elements application_ids) publish_one ;;;
       res_json 200 (message_body "Admissions successfully published."))
      (fun error => res_json 500 (error_body "Error processing admissions.")).

(** ** The router

    [app.METHOD(path, ...)] appends a layer to the stack of the router.
    A request goes to the first layer, in binding order, whose method
    and path match; a later layer is reached only when that handler calls
    [next()], and no handler of [server.js] takes [next].  An exception
    left in the result of [dispatch] was caught by no handler: the only
    error middleware of [server.js] is bound before the routes, so it is
    never reached from one.  When no layer matches, Express answers 404
    itself (its page is abridged here). *)

Inductive segment :=
| Lit (s : string)
| Param (name : string).

Fixpoint match_path (pat : list segment) (p : list string)
    : option (list (string * value)) :=
  match pat, p with
  | [], [] => Some []
  | Lit s :: pat', x :: p' => if s =? x then match_path pat' p' else None
  | Param n :: pat', x :: p' =>
      option_map (cons (n, VStr x)) (match_path pat' p')
  | _, _ => None
  end.

Definition method_eqb (a b : http_method) : bool :=
  match a, b with
  | GET, GET | POST, POST | PUT, PUT | DELETE, DELETE => true
  | _, _ => false
  end.

Record Route := mkRoute {
  route_method : http_method;
  route_path : list segment;
  route_stack : Request -> M unit
}.

Fixpoint dispatch (routes : list Route) (req : Request) : M unit :=
  match routes with
  | [] => res_json 404 (VStr "Not Found")
  | r :: rest =>
      if method_eqb (route_method r) (method req)
      then match match_path (route_path r) (path req) with
           | Some ps => route_stack r (set_params ps req)
           | None => dispatch rest req
           end
      else dispatch rest req
  end.

Section App.
Context {B : Bcrypt}.

(** The bindings of [server.js] that the properties below are about, in
    source order.  The bindings left out are on other pairs of method and
    path, so they take no request from these. *)
Definition app : list Route :=
  [ mkRoute POST [Lit "register"]
      (fun req => req' <- upload_single "profilePicture" req ;; register req');
    mkRoute POST [Lit "login"] login;
    mkRoute DELETE [Lit "institutions"; Param "id"] deleteInstitution;
    mkRoute POST [Lit "applications"] applications_handler;
    mkRoute POST [Lit "apply"] apply_first;
    mkRoute POST [Lit "apply"] apply_second;
    mkRoute POST [Lit "publish-admissions"] publishAdmissions ].

End App.

(** ** The other handlers

    The bindings that read and fill the catalogue.  Three of their
    statements have shapes of their own: a SELECT of named columns, the
    join of [GET /courses], and the UPDATE that [/updateProfile] builds. *)

(** [res.json(data)] for the rows of a SELECT. *)
Definition rows_json (rs : list Row) : value := VArr (map VObj rs).

(** [app.get('/users', ...)] *)
Definition listUsers (req : Request) : M unit :=
  try_catch
    (let sql := SelectAll Users in
     data <- query sql [] ;;
     res_json 200 (rows_json (result_rows data)))
    (fun err => res_json 500 (error_body "Database error while fetching users.")).

(** [app.get('/institutions', ...)] *)
Definition listInstitutions (req : Request) : M unit :=
  try_catch
    (let sql := SelectAll Institutions in
     data <- query sql [] ;;
     res_json 200 (rows_json (result_rows data)))
    (fun err => res_json 500 (error_body "Database error while fetching institutions.")).

(** [app.post('/institutions', upload.single('logo'), ...)] *)
Definition createInstitution (req : Request) : M unit :=
  let name := lookup "name" (body req) in
  let number_of_students := lookup "number_of_students" (body req) in
  let number_of_departments := lookup "number_of_departments" (body req) in
  let number_of_courses := lookup "number_of_courses" (body req) in
  if js_not name || js_not number_of_students || js_not number_of_departments
     || js_not number_of_courses || js_not (req_file req)
  then res_json 400 (error_body "Please provide all required fields and a logo.")
  else
    let sql := InsertInto Institutions
                 ["name"; "number_of_students"; "number_of_departments";
                  "number_of_courses"; "logo"]
                 [Placeholder; Placeholder; Placeholder; Placeholder; Placeholder] in
    try_catch
      (file_path <- lift (get_prop (req_file req) "path") ;;
       result <- query sql [name; number_of_students; number_of_departments;
                            number_of_courses; file_path] ;;
       if (affectedRows result >? 0)%Z
       then res_json 201
              (VObj [("message", VStr "Institution added successfully.");
                     ("institution",
                      VObj [("id", insertId result);
                            ("name", name);
                            ("number_of_students", number_of_students);
                            ("number_of_departments", number_of_departments);
                            ("number_of_courses", number_of_courses);
                            ("logo", file_path)])])
       else res_json 500 (error_body "Failed to add institution."))
      (fun err => res_json 500 (error_body "Database error during adding institution.")).

(** [app.post('/faculties', ...)] *)
Definition createFaculty (req : Request) : M unit :=
  let name := lookup "name" (body req) in
  let institution_id := lookup "institution_id" (body req) in
  if js_not name || js_not institution_id
  then res_json 400 (error_body "Please provide both name and institution.")
  else
    let sql := InsertInto Faculties ["name"; "institution_id"]
                 [Placeholder; Placeholder] in
    try_catch
      (query sql [name; institution_id] ;;;
       res_json 201 (message_body "Faculty added successfully."))
      (fun err => res_json 500 (error_body "Database error during adding faculty.")).

(** [app.post('/courses', ...)] *)
Definition createCourse (req : Request) : M unit :=
  let name := lookup "name" (body req) in
  let faculty := lookup "faculty" (body req) in
  let institution := lookup "institution" (body req) in
  if js_not name || js_not faculty || js_not institution
  then res_json 400 (error_body "Please provide name, faculty, and institution.")
  else
    let sql := InsertInto Courses ["name"; "faculty_id"; "institution_id"]
                 [Placeholder; Placeholder; Placeholder] in
    try_catch
      (query sql [name; faculty; institution] ;;;
       res_json 201 (message_body "Course added successfully."))
      (fun err => res_json 500 (error_body "Database error during adding course.")).

(** The statements with a column list, a join or a SET list. *)
Inductive statement_more :=
| SelectColumns (t : table_name) (cols : list string)
| SelectCoursesJoin
| UpdateWhere (t : table_name) (sets : list string) (col : string).

(** The named columns of a row; a column never written reads NULL. *)
Definition project (cols : list string) (r : Row) : Row :=
  map (fun c => (c, to_sql (lookup c r))) cols.

Definition requirements_literal : string :=
  "High School Diploma, Pass in relevant subjects".

(** One row of [courses c JOIN institutions i ON c.institution_id = i.id]
    under the select list of [GET /courses]. *)
Definition course_listing (c i : Row) : Row :=
  [("id", to_sql (lookup "id" c));
   ("name", to_sql (lookup "name" c));
   ("university", to_sql (lookup "name" i));
   ("requirements", VStr requirements_literal)].

(** [r.k = v] on a row: the column is overwritten, or added when the row
    never had it. *)
Fixpoint set_field (k : string) (v : value) (r : Row) : Row :=
  match r with
  | [] => [(k, v)]
  | (k', v') :: rest =>
      if k' =? k then (k, v) :: rest else (k', v') :: set_field k v rest
  end.

Definition assign (news : list (string * value)) (r : Row) : Row :=
  fold_left (fun r kv => set_field (fst kv) (snd kv) r) news r.

(** The server's side of these statements.  The driver counts in
    [affectedRows] of an UPDATE the rows the WHERE clause found. *)
Definition exec_more (q : statement_more) (params : list value) (d : DB)
    : exn + (qresult * DB) :=
  match q with
  | SelectColumns t cols =>
      inr (QRows (map (project cols) (rows (get_table t d))), d)
  | SelectCoursesJoin =>
      inr (QRows (flat_map
                    (fun c =>
                       map (course_listing c)
                         (filter (fun i => sql_eq (lookup "institution_id" c)
                                             (lookup "id" i))
                            (rows (institutions d))))
                    (rows (courses d))),
           d)
  | UpdateWhere t sets col =>
      match bind_values (repeat Placeholder (S (List.length sets))) params with
      | None => inl (DbError "ER_PARSE_ERROR")
      | Some vs =>
          let news := combine sets vs in
          let key := nth (List.length sets) vs VNull in
          let tb := get_table t d in
          let hit := fun r => sql_eq (lookup col r) key in
          inr (QOk (Z.of_nat (List.length (filter hit (rows tb)))) 0,
               set_table t
                 (mkTable (map (fun r => if hit r then assign news r else r) (rows tb))
                          (next_id tb))
                 d)
      end
  end.

(** [query] on one of these statements: the same connection, the same
    schedule of failures. *)
Definition query_more (q : statement_more) (params : list value) : M qresult :=
  fun w =>
    let w' := set_faults (tl (faults w)) w in
    match faults w with
    | true :: _ => (inl (DbError "ER_CONNECTION"), w')
    | _ =>
        match exec_more q params (db w) with
        | inl e => (inl e, w')
        | inr (r, d') => (inr r, set_db d' w')
        end
    end.

(** [app.get('/university', ...)] *)
Definition listUniversities (req : Request) : M unit :=
  let sql := SelectColumns Institutions
               ["id"; "name"; "number_of_students"; "number_of_departments";
                "number_of_courses"] in
  try_catch
    (results <- query_more sql [] ;;
     res_json 200 (rows_json (result_rows results)))
    (fun err => res_json 500 (error_body "Database error while fetching universities.")).

(** [app.get('/courses', ...)] *)
Definition listCourses (req : Request) : M unit :=
  try_catch
    (let sql := SelectCoursesJoin in
     data <- query_more sql [] ;;
     res_json 200 (rows_json (result_rows data)))
    (fun err => res_json 500 (error_body "Database error while fetching courses.")).

(** [app.get('/faculties', ...)] *)
Definition listFaculties (req : Request) : M unit :=
  let sql := SelectColumns Faculties ["id"; "name"; "institution_id"] in
  try_catch
    (results <- query_more sql [] ;;
     res_json 200 (rows_json (result_rows results)))
    (fun err => res_json 500 (error_body "Database error while fetching faculties.")).

(** [app.put('/updateProfile/:id', upload.single('profilePicture'), ...)].
    [sets] is the SET list of [sqlQuery], which grows with
    [queryParams] when a picture came with the request. *)
Definition updateProfile (req : Request) : M unit :=
  let userId := lookup "id" (params req) in
  let name := lookup "name" (body req) in
  let email := lookup "email" (body req) in
  let phone := lookup "phone" (body req) in
  if js_not name || js_not email || js_not phone
  then res_json 400 (error_body "Please provide name, email, and phone.")
  else
    let sets := ["name"; "email"; "phone"] in
    let queryParams := [name; email; phone] in
    st <- (if truthy (req_file req)
           then file_path <- lift (get_prop (req_file req) "path") ;;
                ret (sets ++ ["profile_picture"], queryParams ++ [file_path])
           else ret (sets, queryParams)) ;;
    let sqlQuery := UpdateWhere Users (fst st) "id" in
    let queryParams := snd st ++ [userId] in
    try_catch
      (result <- query_more sqlQuery queryParams ;;
       if (affectedRows result >? 0)%Z
       then res_json 200 (message_body "Profile updated successfully.")
       else res_json 404 (error_body "User not found."))
      (fun err => res_json 500 (error_body "Database error while updating profile.")).


Definition updateProfile_route (req : Request) : M unit :=
  req' <- upload_single "profilePicture" req ;; updateProfile req'.

(** ** Concrete worlds

    A stand-in for bcrypt, used to run the handlers on concrete requests:
    it has the interface and the output prefix of bcrypt, not its digest. *)

Fixpoint drop_prefix (pre s : string) : option string :=
  match pre, s with
  | EmptyString, _ => Some s
  | String a pre', String b s' => if Ascii.eqb a b then drop_prefix pre' s' else None
  | _, _ => None
  end.

Fixpoint after_dollar (s : string) : option string :=
  match s with
  | EmptyString => None
  | String c rest => if Ascii.eqb c "$" then Some rest else after_dollar rest
  end.

Definition sim_bcrypt : Bcrypt := {|
  bcrypt_hash_string p salt :=
    ("$2b$10$" ++ string_of_Z (Z.of_nat salt) ++ "$" ++ p)%string;
  bcrypt_compare_string p h :=
    match drop_prefix "$2b$10$" h with
    | Some r =>
        match after_dollar r with
        | Some q => q =? p
        | None => false
        end
    | None => false
    end
|}.

Definition empty_table : Table := mkTable [] 1.

Definition empty_db : DB :=
  mkDB empty_table empty_table empty_table empty_table empty_table empty_table.

(** A fresh server: empty tables, a connection that never fails. *)
Definition fresh : World := mkWorld empty_db [] 1700000000000 [] [] [].

Definition post_json (p : string) (b : list (string * value)) : Request :=
  mkRequest POST [p] b None [] None.

(** The seven scalar fields of an application, without [grades]. *)
Definition scalar_fields : list (string * value) :=
  [("student_name", VStr "Thabo"); ("phone_number", VStr "5550100");
   ("student_id", VStr "ST001"); ("university", VStr "NUL");
   ("course_id", VNum 3); ("faculty", VStr "Science");
   ("major_subject", VStr "Physics")].

Definition grade_pair (subject g : string) : value :=
  VObj [("subject", VStr subject); ("grade", VStr g)].

(** ** Properties *)

(** Whether the call of [query] that comes [i] calls from now fails. *)
Definition fault_at (i : nat) (w : World) : bool := nth i (faults w) false.

(** The next [n] calls of [query] meet no failure of the connection. *)
Definition clear (n : nat) (w : World) : Prop :=
  forall i, (i < n)%nat -> fault_at i w = false.

(** [undefined] and [null], the two values without properties. *)
Definition nullish (v : value) : bool :=
  match v with
  | VUndef | VNull => true
  | _ => false
  end.

(** The MIME type contains one of the alternatives of the pattern. *)
Definition mentions_image_kind (m : string) : Prop :=
  exists t pre post,
    In t ["jpeg"; "jpg"; "png"; "gif"] /\ m = (pre ++ t ++ post)%string.

Definition filter_message : string :=
  "Invalid file type. Only JPEG, PNG, and GIF are allowed.".

(** The world after the DELETE statement of [deleteInstitution]. *)
Definition after_delete (p : value) (w : World) : World :=
  let tb := institutions (db w) in
  set_db (set_table Institutions
            (mkTable (filter (fun r => negb (matches "id" p r)) (rows tb)) (next_id tb))
            (db w))
         (set_faults (tl (faults w)) w).

(** What [/publish-admissions] does with one identifier, as a
    specification: the application it finds, if any. *)
Definition find_application (id : value) (d : DB) : option Row :=
  hd_error (filter (matches "id" id) (rows (applications d))).

(** The identifiers of the list that name an application, in list
    order, each with the application found. *)
Definition found (ids : list value) (d : DB) : list Row :=
  flat_map (fun id => match find_application id d with
                      | Some a => [a]
                      | None => []
                      end) ids.

(** The columns of the admission made from an application. *)
Definition admission_of (application : Row) : Row :=
  [("student_id", to_sql (lookup "student_id" application));
   ("course_id", to_sql (lookup "course_id" application));
   ("institution_id", VNull);
   ("faculty_id", VNull);
   ("status", VStr "admitted")].

(** Rows as the table stores them, with consecutive ids from [n]. *)
Fixpoint number_rows (n : Z) (rs : list Row) : list Row :=
  match rs with
  | [] => []
  | r :: rest => (("id", VNum n) :: r) :: number_rows (n + 1) rest
  end.

(** The calls of [query] the loop makes over [ids]: one SELECT each, and
    one INSERT for each application found. *)
Definition queries_of (ids : list value) (d : DB) : nat :=
  List.length ids + List.length (found ids d).

(** The world after the loop over [ids] when no query fails. *)
Definition after_publish (ids : list value) (w : World) : World :=
  let adm := admissions (db w) in
  let new := map admission_of (found ids (db w)) in
  set_db (set_table Admissions
            (mkTable (rows adm ++ number_rows (next_id adm) new)
                     (next_id adm + Z.of_nat (List.length new)))
            (db w))
         (set_faults (skipn (queries_of ids (db w)) (faults w)) w).

(** A server holding two applications, with ids 1 and 2. *)
Definition two_applications : World :=
  set_db (set_table Applications
            (mkTable [[("id", VNum 1); ("student_name", VStr "Thabo");
                       ("student_id", VStr "ST001"); ("course_id", VNum 3)];
                      [("id", VNum 2); ("student_name", VStr "Lineo");
                       ("student_id", VStr "ST002"); ("course_id", VNum 4)]] 3)
            empty_db)
         fresh.

Definition publish_request (ids : list Z) : Request :=
  post_json "publish-admissions" [("application_ids", VArr (map VNum ids))].

(** The row of a registered user and the world after a successful
    registration: the picture on disk, one salt drawn, one query made,
    the row appended, 201 sent. *)
Definition user_row (id : Z) (name email hash user_type picture : string) : Row :=
  [("id", VNum id); ("name", VStr name); ("email", VStr email);
   ("password", VStr hash); ("user_type", VStr user_type);
   ("profile_picture", VStr picture)].

Definition picture_path (f : FilePart) (w : World) : string :=
  ("uploads/" ++ string_of_Z (clock w) ++ "_" ++ originalname f)%string.

Definition after_register (row : Row) (picture : string) (w : World) : World :=
  mkWorld
    (set_table Users
       (mkTable (rows (users (db w)) ++ [row]) (next_id (users (db w)) + 1))
       (db w))
    (tl (faults w)) (clock w) (tl (entropy w)) (disk w ++ [picture])
    (sent w ++ [mkResponse 201 (message_body "User registered successfully.")]).

Definition login_request (email password : string) : Request :=
  post_json "login" [("email", VStr email); ("password", VStr password)].

Definition register_request (name email password user_type : string)
    (f : FilePart) : Request :=
  mkRequest POST ["register"]
    [("name", VStr name); ("email", VStr email); ("password", VStr password);
     ("user_type", VStr user_type)]
    (Some f) [] None.

(** Nine subject/grade pairs, S1/G1 to S9/G9. *)
Definition nine_grades : list value :=
  map (fun i => grade_pair ("S" ++ i) ("G" ++ i))
    ["1"; "2"; "3"; "4"; "5"; "6"; "7"; "8"; "9"]%string.

Definition apply_request (grades : list value) : Request :=
  post_json "apply" (scalar_fields ++ [("grades", VArr grades)]).

(** The parameters the first [/apply] binding passes to [query] for a
    request, when the loop over [grades] ends. *)
Definition params_of (req : Request) : option (list value) :=
  match forEach (lookup "grades" (body req)) store_grade
          (Array_fill 8 (VStr ""), Array_fill 8 (VStr "")) with
  | inr st =>
      Some (apply_params
              (lookup "student_name" (body req)) (lookup "phone_number" (body req))
              (lookup "student_id" (body req)) (lookup "university" (body req))
              (lookup "course_id" (body req)) (lookup "faculty" (body req))
              (lookup "major_subject" (body req)) (fst st) (snd st))
  | inl _ => None
  end.

(** The value the statement of the first [/apply] binding has at the
    position of each column it names. *)
Definition column_values (req : Request) : list (string * value) :=
  match params_of req with
  | Some ps =>
      match bind_values application_values ps with
      | Some vs => combine application_columns vs
      | None => []
      end
  | None => []
  end.

(** [o.k] where [o] is known not to be [undefined] or [null]. *)
Definition field (o : value) (k : string) : value :=
  match o with
  | VObj fields => lookup k fields
  | _ => VUndef
  end.

(** [grade.subject || ''] and [grade.grade || '']. *)
Definition subject_of (grade : value) : value := js_or (field grade "subject") (VStr "").
Definition grade_of (grade : value) : value := js_or (field grade "grade") (VStr "").


(** The row has the numeric id [n]. *)
Definition has_id (n : Z) (r : Row) : bool :=
  match lookup "id" r with
  | VNum m => (m =? n)%Z
  | _ => false
  end.

Definition numeric_id (r : Row) : Prop := exists m, lookup "id" r = VNum m.

(** [DELETE /institutions/<n>] as it reaches the server. *)
Definition delete_request (n : Z) : Request :=
  mkRequest DELETE ["institutions"; string_of_Z n] [] None [] None.

(** A computation that writes no response. *)
Definition quiet {A : Type} (m : M A) : Prop :=
  forall w, sent (snd (m w)) = sent w.

(** A computation that either throws before it has written anything or
    returns having written exactly one response. *)
Definition careful (m : M unit) : Prop :=
  forall w,
    (exists e, fst (m w) = inl e /\ sent (snd (m w)) = sent w) \/
    (exists r, fst (m w) = inr tt /\ sent (snd (m w)) = sent w ++ [r]).

(** A handler that, whatever the request and the world, returns with
    exactly one response written: no exception escapes it. *)
Definition answers_once (h : Request -> M unit) : Prop :=
  forall req w,
    exists r, fst (h req w) = inr tt /\ sent (snd (h req w)) = sent w ++ [r].

(** [application_ids] is an array with at least one element. *)
Definition nonempty_array (v : value) : bool :=
  match v with
  | VArr (_ :: _) => true
  | _ => false
  end.

(** A server holding two institutions, with ids 5 and 6, a faculty and
    two courses of the first. *)
Definition small_catalogue : World :=
  mkWorld
    (mkDB empty_table
       (mkTable [[("id", VNum 5); ("name", VStr "NUL"); ("logo", VStr "uploads/1_n.png")];
                 [("id", VNum 6); ("name", VStr "LUCT"); ("logo", VStr "uploads/2_l.png")]] 7)
       (mkTable [[("id", VNum 1); ("name", VStr "Science"); ("institution_id", VNum 5)]] 2)
       (mkTable [[("id", VNum 1); ("name", VStr "CS101"); ("faculty_id", VNum 1);
                  ("institution_id", VNum 5)];
                 [("id", VNum 2); ("name", VStr "BA200"); ("faculty_id", VNum 9);
                  ("institution_id", VNum 6)]] 3)
       empty_table empty_table)
    [] 1700000000000 [] [] [].

(** A computation that leaves one component of the world as it was. *)
Definition keeps {X A : Type} (proj : World -> X) (m : M A) : Prop :=
  forall w, proj (snd (m w)) = proj w.

(** A server with one registered user, whose password is [pw]. *)
Definition one_user : World :=
  set_db (set_table Users
            (mkTable [user_row 1 "A" "a@x.com" "$2b$10$0$pw" "student"
                        "uploads/1700000000000_me.png"] 2)
            empty_db)
         fresh.

Definition png_picture : FilePart := mkFilePart "profilePicture" "me.png" "image/png".

(** The rows of [GET /courses] that come from the course [c], and the
    whole listing. *)
Definition listed_for (c : Row) (d : DB) : list Row :=
  map (course_listing c)
    (filter (fun i => sql_eq (lookup "institution_id" c) (lookup "id" i))
       (rows (institutions d))).

Definition courses_listing (d : DB) : list Row :=
  flat_map (fun c => listed_for c d) (rows (courses d)).



Definition get_json (p : string) : Request := mkRequest GET [p] [] None [] None.

Definition university_columns : list string :=
  ["id"; "name"; "number_of_students"; "number_of_departments"; "number_of_courses"].


(** *** Strings *)

Lemma prefix_app (pat s : string) :
  prefix pat s = true <-> exists post, s = (pat ++ post)%string.
Proof.
  revert s. induction pat as [|a pat IH]; intros s.
  - split; [intros _; now exists s | intros _; now destruct s].
  - destruct s as [|b s]; simpl.
    + split; [discriminate | intros [post H]; discriminate].
    + destruct (ascii_dec a b) as [->|Hab].
      * rewrite IH. split; intros [post H]; exists post.
        -- now rewrite H.
        -- now injection H.
      * split; [discriminate | intros [post H]; injection H; congruence].
Qed.

Lemma includes_nil (pat : string) : includes pat "" = prefix pat "".
Proof. cbn [includes]. apply orb_false_r. Qed.

Lemma includes_cons (pat : string) (c : ascii) (s : string) :
  includes pat (String c s) = prefix pat (String c s) || includes pat s.
Proof. reflexivity. Qed.

Lemma includes_spec (pat s : string) :
  includes pat s = true <-> exists pre post, s = (pre ++ pat ++ post)%string.
Proof.
  split.
  - induction s as [|c s IH]; intros H.
    + rewrite includes_nil in H. apply prefix_app in H as [post H].
      now exists "", post.
    + rewrite includes_cons in H. apply orb_true_iff in H as [H|H].
      * apply prefix_app in H as [post H]. now exists "", post.
      * destruct (IH H) as (pre & post & ->). now exists (String c pre), post.
  - intros (pre & post & ->). induction pre as [|c pre IH].
    + assert (H : prefix pat (pat ++ post) = true)
        by (apply prefix_app; now exists post).
      change ("" ++ pat ++ post)%string with (pat ++ post)%string.
      destruct (pat ++ post)%string.
      * now rewrite includes_nil.
      * now rewrite includes_cons, H.
    + change (String c pre ++ pat ++ post)%string
        with (String c (pre ++ pat ++ post)).
      rewrite includes_cons, IH. apply orb_true_r.
Qed.

Lemma filetypes_test_spec (m : string) :
  filetypes_test m = true <-> mentions_image_kind m.
Proof.
  unfold filetypes_test, mentions_image_kind.
  rewrite !orb_true_iff, !includes_spec. split.
  - intros [[[H|H]|H]|H]; destruct H as (pre & post & ->);
      eexists _, pre, post; (split; [|reflexivity]); simpl; auto.
  - intros (t & pre & post & Ht & ->). simpl in Ht.
    destruct Ht as [<-|[<-|[<-|[<-|[]]]]]; eauto 7.
Qed.

(** *** The upload filter *)

Lemma fileFilter_accepts (f : FilePart) :
  fileFilter f = inr true <-> mentions_image_kind (mimetype f).
Proof.
  rewrite <- filetypes_test_spec. unfold fileFilter.
  destruct (filetypes_test (mimetype f)); split; congruence.
Qed.

Lemma upload_single_accepted (field : string) (f : FilePart) (req : Request)
    (w : World) :
  part req = Some f ->
  fieldname f = field ->
  mentions_image_kind (mimetype f) ->
  let p := ("uploads/" ++ string_of_Z (clock w) ++ "_" ++ originalname f)%string in
  upload_single field req w = (inr (set_file p req), set_disk (disk w ++ [p]) w).
Proof.
  intros Hpart Hfield Hm. apply fileFilter_accepts in Hm.
  unfold upload_single. rewrite Hpart, Hfield, String.eqb_refl. simpl.
  unfold bind at 1. rewrite Hm. reflexivity.
Qed.

Lemma upload_single_refused (field : string) (f : FilePart) (req : Request)
    (w : World) :
  part req = Some f ->
  fieldname f = field ->
  ~ mentions_image_kind (mimetype f) ->
  upload_single field req w = (inl (FileTypeError filter_message), w).
Proof.
  intros Hpart Hfield Hm. unfold upload_single, bind.
  rewrite Hpart, Hfield, String.eqb_refl. simpl. unfold fileFilter.
  destruct (filetypes_test (mimetype f)) eqn:E.
  - exfalso. apply Hm. now apply filetypes_test_spec.
  - reflexivity.
Qed.

(** C4, as the code has it.  The filter tests the declared MIME type
    against an unanchored pattern: a file is accepted exactly when its
    MIME type contains one of jpeg, jpg, png, gif, which image/jpeg,
    image/png and image/gif do.  An accepted file is written under
    uploads/ and becomes req.file; a refused one stops the route with the
    filter's error before the handler runs, and the world is unchanged:
    nothing on disk, no row. *)
Theorem upload_filter_by_substring (field : string) (f : FilePart)
    (req : Request) (h : Request -> M unit) (w : World) :
  part req = Some f ->
  fieldname f = field ->
  (fileFilter f = inr true <-> mentions_image_kind (mimetype f)) /\
  (In (mimetype f) ["image/jpeg"; "image/png"; "image/gif"] ->
   mentions_image_kind (mimetype f)) /\
  (mentions_image_kind (mimetype f) ->
   let p := ("uploads/" ++ string_of_Z (clock w) ++ "_" ++ originalname f)%string in
   upload_single field req w = (inr (set_file p req), set_disk (disk w ++ [p]) w)) /\
  (~ mentions_image_kind (mimetype f) ->
   (req' <- upload_single field req ;; h req') w
   = (inl (FileTypeError filter_message), w)).
Proof.
  intros Hpart Hfield. split; [apply fileFilter_accepts|]. split; [|split].
  - intros Hin. apply filetypes_test_spec. simpl in Hin.
    destruct Hin as [<-|[<-|[<-|[]]]]; reflexivity.
  - now apply upload_single_accepted.
  - intros Hm. unfold bind.
    now rewrite (upload_single_refused field f req w Hpart Hfield Hm).
Qed.

Lemma upload_filter_by_substring_witness :
  let f := mkFilePart "profilePicture" "me.png" "image/png" in
  let req := mkRequest POST ["register"] [] (Some f) [] None in
  part req = Some f /\
  fieldname f = "profilePicture" /\
  In (mimetype f) ["image/jpeg"; "image/png"; "image/gif"] /\
  upload_single "profilePicture" req fresh
  = (inr (set_file "uploads/1700000000000_me.png" req),
     set_disk ["uploads/1700000000000_me.png"] fresh).
Proof.
  intros f req.
  assert (Hin : In (mimetype f) ["image/jpeg"; "image/png"; "image/gif"])
    by (simpl; auto).
  split; [reflexivity | split; [reflexivity | split; [exact Hin |]]].
  destruct (upload_filter_by_substring "profilePicture" f req (fun _ => ret tt)
              fresh eq_refl eq_refl) as (_ & H1 & H2 & _).
  exact (H2 (H1 Hin)).
Defined.

(** A MIME type outside the three image types, and outside the four
    words of the pattern, that the filter accepts: the file is written. *)
Lemma upload_filter_accepts_text_gif :
  let f := mkFilePart "logo" "notes.txt" "text/gif" in
  let req := mkRequest POST ["institutions"] [] (Some f) [] None in
  ~ In (mimetype f) ["image/jpeg"; "image/png"; "image/gif"] /\
  ~ In (mimetype f) ["jpeg"; "jpg"; "png"; "gif"] /\
  fileFilter f = inr true /\
  upload_single "logo" req fresh
  = (inr (set_file "uploads/1700000000000_notes.txt" req),
     set_disk ["uploads/1700000000000_notes.txt"] fresh).
Proof.
  intros f req. split; [|split; [|split; reflexivity]];
    simpl; intros H; repeat (destruct H as [H|H]; [discriminate|]); exact H.
Qed.

(** *** Routing of POST /apply *)

(** C3, as the code has it.  Both bindings are in the routing table, and
    a POST /apply request is answered by the first of them; the second
    binding is the one that never handles a request. *)
Theorem apply_served_by_first_binding {B : Bcrypt} (req : Request) (w : World) :
  method req = POST ->
  path req = ["apply"] ->
  dispatch app req w = apply_first req w.
Proof.
  intros Hm Hp. unfold app. simpl. rewrite Hm, Hp. reflexivity.
Qed.

Lemma apply_served_by_first_binding_witness :
  let req := post_json "apply" scalar_fields in
  method req = POST /\ path req = ["apply"] /\
  dispatch (@app sim_bcrypt) req fresh = apply_first req fresh.
Proof.
  intros req. split; [reflexivity | split; [reflexivity |]].
  exact (@apply_served_by_first_binding sim_bcrypt req fresh eq_refl eq_refl).
Defined.

(** A request that has the three fields the second binding asks for,
    and not the others: the endpoint answers 400 with the message of the
    first binding and inserts nothing, where the second binding would
    insert the row and answer 201. *)
Lemma apply_not_served_by_second_binding :
  let req := post_json "apply"
               [("student_name", VStr "Thabo"); ("student_id", VStr "ST001");
                ("course_id", VNum 3)] in
  dispatch (@app sim_bcrypt) req fresh
  = (inr tt, set_sent [mkResponse 400 (error_body "All fields are required.")] fresh) /\
  map status (sent (snd (apply_second req fresh))) = [201%Z] /\
  List.length (rows (applications (db (snd (apply_second req fresh))))) = 1%nat /\
  dispatch (@app sim_bcrypt) req fresh <> apply_second req fresh.
Proof.
  repeat split; discriminate.
Qed.

(** *** Responses of POST /apply *)

(** C7 at the failing input: the seven scalar fields without [grades].
    The validation passes, [grades.forEach] throws outside the [try], and
    the request ends with the exception and no response at all. *)
Theorem apply_without_grades_unanswered :
  dispatch (@app sim_bcrypt) (post_json "apply" scalar_fields) fresh
  = (inl (TypeError "Cannot read properties of undefined (reading 'forEach')"),
     fresh) /\
  sent (snd (dispatch (@app sim_bcrypt) (post_json "apply" scalar_fields) fresh)) = [].
Proof. split; reflexivity. Qed.

(** *** POST /applications *)

Lemma store_grade_error (g : value) (i : nat) (st : list value * list value) (e : exn) :
  store_grade g i st = inl e -> exists msg, e = TypeError msg.
Proof.
  unfold store_grade.
  destruct g; simpl; intros H; try discriminate; injection H as <-; eauto.
Qed.

Lemma store_grade_defined (g : value) (i : nat) (st : list value * list value) :
  nullish g = false -> exists st', store_grade g i st = inr st'.
Proof.
  unfold store_grade. destruct g; simpl; intros H; try discriminate; eauto.
Qed.

Lemma forEach_from_error (xs : list value) :
  forall i st e,
    forEach_from store_grade xs i st = inl e -> exists msg, e = TypeError msg.
Proof.
  induction xs as [|x xs IH]; simpl; intros i st e H; [discriminate|].
  destruct (store_grade x i st) eqn:E.
  - injection H as <-. eapply store_grade_error, E.
  - eapply IH, H.
Qed.

Lemma forEach_from_defined (xs : list value) :
  forallb (fun g => negb (nullish g)) xs = true ->
  forall i st, exists st', forEach_from store_grade xs i st = inr st'.
Proof.
  induction xs as [|x xs IH]; simpl; intros H i st; [eauto|].
  apply andb_true_iff in H as [Hx Hxs]. apply negb_true_iff in Hx.
  destruct (store_grade_defined x i st Hx) as [st' ->]. now apply IH.
Qed.

Lemma forEach_error (grades : value) (st : list value * list value) (e : exn) :
  forEach grades store_grade st = inl e -> exists msg, e = TypeError msg.
Proof.
  destruct grades; simpl; intros H;
    try (injection H as <-; eauto; fail).
  eapply forEach_from_error, H.
Qed.

Lemma truthy_not (v : value) : truthy v = true -> js_not v = false.
Proof. unfold js_not. now intros ->. Qed.

(** C10.  A POST /applications request whose eight fields pass the
    validation never inserts a row and never gets 201: either the loop
    over [grades] throws a TypeError that nothing catches and the world
    is untouched, or the [try] is entered, the evaluation of the
    undeclared [testQuery] throws before [query] is called, and the
    answer is the 500 of the [catch].  When [grades] is an array without
    null entries it is the second. *)
Theorem applications_never_inserts (req : Request) (w : World) :
  Forall (fun k => truthy (lookup k (body req)) = true)
    ["student_name"; "phone_number"; "student_id"; "university"; "course_id";
     "faculty"; "major_subject"; "grades"] ->
  let answered :=
    (inr tt,
     set_sent (sent w ++ [mkResponse 500
        (error_body "Database error during application submission.")]) w) in
  (applications_handler req w = answered \/
   exists msg, applications_handler req w = (inl (TypeError msg), w)) /\
  (forall xs, lookup "grades" (body req) = VArr xs ->
     forallb (fun g => negb (nullish g)) xs = true ->
     applications_handler req w = answered) /\
  db (snd (applications_handler req w)) = db w /\
  faults (snd (applications_handler req w)) = faults w /\
  (forall r, In r (sent (snd (applications_handler req w))) ->
     In r (sent w) \/ status r = 500%Z).
Proof.
  intros H answered.
  repeat match goal with
         | H : Forall _ (_ :: _) |- _ =>
             let Hh := fresh "Hf" in
             apply Forall_cons_iff in H as [Hh H]; apply truthy_not in Hh
         end.
  assert (Hrun : forall st,
             forEach (lookup "grades" (body req)) store_grade
               (Array_fill 8 (VStr ""), Array_fill 8 (VStr "")) = inr st ->
             applications_handler req w = answered).
  { intros st E. unfold applications_handler.
    rewrite Hf, Hf0, Hf1, Hf2, Hf3, Hf4, Hf5, Hf6. cbn [orb].
    unfold bind at 1. rewrite E. reflexivity. }
  assert (Hcases : applications_handler req w = answered \/
                   exists msg, applications_handler req w = (inl (TypeError msg), w)).
  { destruct (forEach (lookup "grades" (body req)) store_grade
                (Array_fill 8 (VStr ""), Array_fill 8 (VStr ""))) as [e|st] eqn:E.
    - right. destruct (forEach_error _ _ _ E) as [msg ->]. exists msg.
      unfold applications_handler.
      rewrite Hf, Hf0, Hf1, Hf2, Hf3, Hf4, Hf5, Hf6. cbn [orb].
      unfold bind at 1. rewrite E. reflexivity.
    - left. now apply (Hrun st). }
  split; [exact Hcases|]. split.
  - intros xs Hxs Hall.
    destruct (forEach_from_defined xs Hall 0
                (Array_fill 8 (VStr ""), Array_fill 8 (VStr ""))) as [st E].
    apply (Hrun st). rewrite Hxs. exact E.
  - destruct Hcases as [->|[msg ->]]; cbn [snd answered].
    + repeat split. intros r Hr. cbn in Hr. apply in_app_or in Hr as [Hr|[<-|[]]]; auto.
    + repeat split. auto.
Qed.

Lemma applications_never_inserts_witness :
  let req := post_json "applications"
               (scalar_fields ++ [("grades", VArr [grade_pair "Math" "A"])]) in
  Forall (fun k => truthy (lookup k (body req)) = true)
    ["student_name"; "phone_number"; "student_id"; "university"; "course_id";
     "faculty"; "major_subject"; "grades"] /\
  applications_handler req fresh
  = (inr tt, set_sent [mkResponse 500
       (error_body "Database error during application submission.")] fresh) /\
  db (snd (applications_handler req fresh)) = empty_db.
Proof.
  intros req.
  assert (Hv : Forall (fun k => truthy (lookup k (body req)) = true)
                 ["student_name"; "phone_number"; "student_id"; "university";
                  "course_id"; "faculty"; "major_subject"; "grades"])
    by (repeat constructor).
  split; [exact Hv|].
  destruct (applications_never_inserts req fresh Hv) as (_ & Harr & Hdb & _).
  split; [|exact Hdb].
  exact (Harr [grade_pair "Math" "A"] eq_refl eq_refl).
Defined.

(** *** The connection *)

Lemma query_clear (q : statement) (ps : list value) (w : World) :
  fault_at 0 w = false ->
  query q ps w =
  match exec q ps (db w) with
  | inl e => (inl e, set_faults (tl (faults w)) w)
  | inr (r, d') => (inr r, set_db d' (set_faults (tl (faults w)) w))
  end.
Proof.
  unfold query, fault_at. destruct (faults w) as [|[|] fs]; simpl; intros H;
    try discriminate; reflexivity.
Qed.

Lemma fault_at_tl (i : nat) (w w' : World) :
  faults w' = tl (faults w) -> fault_at i w' = fault_at (S i) w.
Proof.
  unfold fault_at. intros ->. destruct (faults w); simpl; [now destruct i | reflexivity].
Qed.

Lemma clear_tl (n : nat) (w w' : World) :
  clear (S n) w -> faults w' = tl (faults w) -> clear n w'.
Proof.
  intros H Hf i Hi. rewrite (fault_at_tl i w w' Hf). apply H. lia.
Qed.

Lemma clear_head (n : nat) (w : World) : clear (S n) w -> fault_at 0 w = false.
Proof. intros H. apply H. lia. Qed.

(** *** DELETE /institutions/:id *)

Lemma filter_none {A : Type} (f : A -> bool) (l : list A) :
  filter f (filter (fun x => negb (f x)) l) = [].
Proof.
  induction l as [|x l IH]; simpl; [reflexivity|].
  destruct (f x) eqn:E; simpl; [exact IH | now rewrite E].
Qed.

Lemma filter_idem {A : Type} (f : A -> bool) (l : list A) :
  filter f (filter f l) = filter f l.
Proof.
  induction l as [|x l IH]; simpl; [reflexivity|].
  destruct (f x) eqn:E; simpl; [rewrite E, IH; reflexivity | exact IH].
Qed.

Lemma filter_some {A : Type} (f : A -> bool) (l : list A) :
  existsb f l = true -> (Z.of_nat (List.length (filter f l)) >? 0)%Z = true.
Proof.
  induction l as [|x l IH]; simpl; [discriminate|].
  destruct (f x); simpl; intros H.
  - apply Z.gtb_lt. lia.
  - now apply IH.
Qed.

Lemma deleteInstitution_run (req : Request) (w : World) :
  fault_at 0 w = false ->
  let p := lookup "id" (params req) in
  deleteInstitution req w =
  if (Z.of_nat (List.length (filter (matches "id" p) (rows (institutions (db w))))) >? 0)%Z
  then res_json 200 (message_body "Institution deleted successfully.") (after_delete p w)
  else res_json 404 (error_body "Institution not found.") (after_delete p w).
Proof.
  intros H p. unfold deleteInstitution, try_catch, bind.
  rewrite (query_clear _ _ _ H). cbn [exec get_table affectedRows]. fold p.
  unfold after_delete.
  destruct (Z.of_nat _ >? 0)%Z; reflexivity.
Qed.

(** C9.  When the id names an institution and the connection does not
    fail, the first DELETE answers 200 and leaves no row under that id;
    the second answers 404 and leaves the tables and the disk as the
    first left them. *)
Theorem deleteInstitution_twice (req : Request) (w : World) :
  clear 2 w ->
  existsb (matches "id" (lookup "id" (params req)))
    (rows (institutions (db w))) = true ->
  let r1 := deleteInstitution req w in
  let r2 := deleteInstitution req (snd r1) in
  fst r1 = inr tt /\
  sent (snd r1)
  = sent w ++ [mkResponse 200 (message_body "Institution deleted successfully.")] /\
  List.length (rows (institutions (db (snd r1))))
  < List.length (rows (institutions (db w))) /\
  existsb (matches "id" (lookup "id" (params req)))
    (rows (institutions (db (snd r1)))) = false /\
  fst r2 = inr tt /\
  sent (snd r2) = sent (snd r1) ++ [mkResponse 404 (error_body "Institution not found.")] /\
  db (snd r2) = db (snd r1) /\
  disk (snd r2) = disk (snd r1).
Proof.
  intros Hclear Hex r1 r2. set (p := lookup "id" (params req)) in *.
  assert (H1 : r1 = res_json 200 (message_body "Institution deleted successfully.")
                      (after_delete p w)).
  { subst r1. rewrite (deleteInstitution_run req w (clear_head _ _ Hclear)).
    fold p. now rewrite (filter_some _ _ Hex). }
  assert (Hc : fault_at 0 (snd r1) = false).
  { rewrite H1. apply (clear_tl 1 w); [exact Hclear | reflexivity | lia]. }
  assert (H2 : r2 = res_json 404 (error_body "Institution not found.")
                      (after_delete p (snd r1))).
  { subst r2. rewrite (deleteInstitution_run req (snd r1) Hc). fold p.
    rewrite H1. cbn [snd res_json after_delete db set_sent set_db set_faults
                     set_table institutions rows].
    now rewrite filter_none. }
  rewrite H2, H1.
  cbn [fst snd res_json after_delete db set_sent set_db set_faults set_table
       institutions rows sent disk next_id users faculties courses applications
       admissions].
  rewrite (filter_idem (fun r => negb (matches "id" p r))).
  repeat split.
  - clear - Hex. induction (rows (institutions (db w))) as [|x l IH];
      simpl in *; [discriminate|].
    destruct (matches "id" p x); simpl in *.
    + pose proof (filter_length_le (fun r => negb (matches "id" p r)) l). lia.
    + specialize (IH Hex). lia.
  - clear. induction (rows (institutions (db w))) as [|x l IH]; simpl; [reflexivity|].
    destruct (matches "id" p x) eqn:E; simpl; [exact IH | now rewrite E].
Qed.

Lemma deleteInstitution_twice_witness :
  let w := set_db (set_table Institutions
                     (mkTable [[("id", VNum 5); ("name", VStr "NUL")]] 6) empty_db)
                  fresh in
  let req := set_params [("id", VStr "5")]
               (mkRequest DELETE ["institutions"; "5"] [] None [] None) in
  clear 2 w /\
  existsb (matches "id" (lookup "id" (params req)))
    (rows (institutions (db w))) = true /\
  map status (sent (snd (deleteInstitution req w))) = [200%Z] /\
  map status (sent (snd (deleteInstitution req (snd (deleteInstitution req w)))))
  = [200%Z; 404%Z].
Proof.
  intros w req.
  assert (Hc : clear 2 w) by (intros [|[|i]] _; reflexivity).
  assert (He : existsb (matches "id" (lookup "id" (params req)))
                 (rows (institutions (db w))) = true) by reflexivity.
  split; [exact Hc | split; [exact He |]].
  destruct (deleteInstitution_twice req w Hc He) as (_ & H1 & _ & _ & _ & H2 & _).
  split.
  - rewrite H1. reflexivity.
  - rewrite H2, H1. reflexivity.
Defined.

(** *** POST /publish-admissions *)

Lemma number_rows_app (a b : list Row) :
  forall n, number_rows n (a ++ b)
            = number_rows n a ++ number_rows (n + Z.of_nat (List.length a)) b.
Proof.
  induction a as [|r a IH]; intros n.
  - simpl. now rewrite Z.add_0_r.
  - simpl. rewrite IH. do 3 f_equal. lia.
Qed.

Lemma found_ext (ids : list value) (d d' : DB) :
  applications d = applications d' -> found ids d = found ids d'.
Proof.
  intros H. unfold found, find_application. now rewrite H.
Qed.

Lemma found_app (xs ys : list value) (d : DB) :
  found (xs ++ ys) d = found xs d ++ found ys d.
Proof. apply flat_map_app. Qed.

Lemma queries_of_app (xs ys : list value) (d : DB) :
  queries_of (xs ++ ys) d = queries_of xs d + queries_of ys d.
Proof.
  unfold queries_of. rewrite found_app, !length_app. lia.
Qed.

Lemma after_publish_applications (ids : list value) (w : World) :
  applications (db (after_publish ids w)) = applications (db w).
Proof. reflexivity. Qed.

Lemma after_publish_nil (w : World) : after_publish [] w = w.
Proof.
  destruct w as [[u i f c a [r n]] fl ck en dk st].
  unfold after_publish. simpl. now rewrite app_nil_r, Z.add_0_r.
Qed.

Lemma after_publish_app (xs ys : list value) (w : World) :
  after_publish (xs ++ ys) w = after_publish ys (after_publish xs w).
Proof.
  unfold after_publish at 1 2.
  rewrite (found_ext ys (db (after_publish xs w)) (db w)
             (after_publish_applications xs w)).
  unfold queries_of.
  rewrite (found_ext ys (db (after_publish xs w)) (db w)
             (after_publish_applications xs w)).
  fold (queries_of ys (db w)). fold (queries_of (xs ++ ys) (db w)).
  rewrite queries_of_app, found_app, map_app, number_rows_app, length_app.
  unfold after_publish, set_db, set_faults, set_table.
  cbn [db faults admissions rows next_id users
       institutions faculties courses applications clock entropy disk sent].
  rewrite skipn_skipn, <- app_assoc, !length_map.
  rewrite (Nat.add_comm (queries_of ys (db w))).
  rewrite Nat2Z.inj_add, Z.add_assoc. reflexivity.
Qed.

Lemma fault_at_skipn (i n : nat) (w w' : World) :
  faults w' = skipn n (faults w) -> fault_at i w' = fault_at (n + i) w.
Proof.
  unfold fault_at. intros ->. generalize (faults w). induction n as [|n IH]; intros l.
  - reflexivity.
  - destruct l; simpl; [now destruct i | apply IH].
Qed.

Lemma clear_split (a b : nat) (w w' : World) :
  clear (a + b) w -> faults w' = skipn a (faults w) -> clear a w /\ clear b w'.
Proof.
  intros H Hf. split; intros i Hi.
  - apply H. lia.
  - rewrite (fault_at_skipn i a w w' Hf). apply H. lia.
Qed.

(** One turn of the loop when its queries succeed. *)
Lemma publish_one_run (id : value) (w : World) :
  clear (queries_of [id] (db w)) w ->
  publish_one id w = (inr tt, after_publish [id] w).
Proof.
  intros Hc.
  assert (H0 : fault_at 0 w = false) by (apply Hc; unfold queries_of; simpl; lia).
  assert (H1 : find_application id (db w) <> None -> fault_at 1 w = false).
  { intros Hf. apply Hc. unfold queries_of, found. simpl.
    destruct (find_application id (db w)); [simpl; lia | congruence]. }
  clear Hc. destruct w as [[u i f c a [r n]] fl ck en dk st].
  unfold publish_one, bind, query, after_publish, queries_of, found,
    find_application, fault_at in *.
  cbn [exec get_table db applications result_rows flat_map hd_error faults] in *.
  destruct (filter (matches "id" id) (rows a)) as [|row0 rest] eqn:E.
  - destruct fl as [|[|] fl]; try discriminate;
      cbn; now rewrite app_nil_r, Z.add_0_r.
  - specialize (H1 ltac:(discriminate)).
    destruct fl as [|[|] [|[|] fl]]; try discriminate; reflexivity.
Qed.

(** The loop, when the queries it makes succeed. *)
Lemma publish_loop (ids : list value) :
  forall w, clear (queries_of ids (db w)) w ->
            for_of ids publish_one w = (inr tt, after_publish ids w).
Proof.
  induction ids as [|id ids IH]; intros w Hc.
  - now rewrite after_publish_nil.
  - change (id :: ids) with ([id] ++ ids) in Hc |- *.
    rewrite queries_of_app in Hc.
    destruct (clear_split _ _ w (after_publish [id] w) Hc eq_refl) as [H1 H2].
    rewrite after_publish_app. cbn [Datatypes.app for_of]. unfold bind.
    rewrite (publish_one_run id w H1). apply IH. exact H2.
Qed.

Lemma for_of_app {A : Type} (xs ys : list A) (f : A -> M unit) (w : World) :
  for_of (xs ++ ys) f w = (for_of xs f ;;; for_of ys f) w.
Proof.
  revert w. induction xs as [|x xs IH]; intros w; [reflexivity|].
  cbn [Datatypes.app for_of]. unfold bind.
  destruct (f x w) as [[e|[]] w1]; [reflexivity|].
  rewrite IH. reflexivity.
Qed.

(** One turn of the loop when the INSERT fails: the SELECT and the
    failed INSERT are consumed, nothing else changes. *)
Lemma publish_one_fault (id : value) (w : World) :
  find_application id (db w) <> None ->
  fault_at 0 w = false ->
  fault_at 1 w = true ->
  publish_one id w
  = (inl (DbError "ER_CONNECTION"), set_faults (skipn 2 (faults w)) w).
Proof.
  intros Hf H0 H1. destruct w as [d fl ck en dk st].
  unfold publish_one, bind, query, find_application, fault_at in *.
  cbn [exec get_table db result_rows faults] in *.
  destruct (filter (matches "id" id) (rows (applications d))) as [|row0 rest];
    [now contradiction Hf|].
  destruct fl as [|[|] [|[|] fl]]; try discriminate; reflexivity.
Qed.

Lemma found_count (ids : list value) (d : DB) :
  List.length (found ids d)
  = List.length (filter (fun id => existsb (matches "id" id) (rows (applications d))) ids).
Proof.
  unfold found, find_application.
  induction ids as [|id ids IH]; [reflexivity|].
  cbn [flat_map filter]. rewrite length_app, IH.
  assert (H : forall l, existsb (matches "id" id) l
                        = match hd_error (filter (matches "id" id) l) with
                          | Some _ => true
                          | None => false
                          end).
  { induction l as [|r l IHl]; [reflexivity|]. simpl.
    destruct (matches "id" id r); [reflexivity | exact IHl]. }
  rewrite H. destruct (hd_error _); reflexivity.
Qed.

Lemma publishAdmissions_enters (req : Request) (ids : list value) (w : World) :
  lookup "application_ids" (body req) = VArr ids ->
  ids <> [] ->
  publishAdmissions req w =
  try_catch
    (for_of ids publish_one ;;;
     res_json 200 (message_body "Admissions successfully published."))
    (fun error => res_json 500 (error_body "Error processing admissions.")) w.
Proof.
  intros Hb Hne. unfold publishAdmissions. rewrite Hb.
  destruct ids; [congruence | reflexivity].
Qed.

(** C1.  With a non-empty list of identifiers and a connection that does
    not fail, the loop inserts one admission for each identifier that
    names an application, in list order, with the student_id and
    course_id of that application, NULL institution_id and faculty_id
    and status 'admitted'; the other identifiers add nothing and raise
    nothing; the other tables are untouched, and the answer is 200. *)
Theorem publishAdmissions_inserts_found (req : Request) (ids : list Z) (w : World) :
  lookup "application_ids" (body req) = VArr (map VNum ids) ->
  ids <> [] ->
  (forall i, fault_at i w = false) ->
  let new := map admission_of (found (map VNum ids) (db w)) in
  let adm := admissions (db w) in
  let w' := snd (publishAdmissions req w) in
  fst (publishAdmissions req w) = inr tt /\
  sent w' = sent w ++ [mkResponse 200 (message_body "Admissions successfully published.")] /\
  admissions (db w')
  = mkTable (rows adm ++ number_rows (next_id adm) new)
            (next_id adm + Z.of_nat (List.length new)) /\
  List.length new
  = List.length (filter (fun id => existsb (matches "id" (VNum id))
                                     (rows (applications (db w)))) ids) /\
  applications (db w') = applications (db w) /\
  users (db w') = users (db w) /\
  institutions (db w') = institutions (db w) /\
  faculties (db w') = faculties (db w) /\
  courses (db w') = courses (db w).
Proof.
  intros Hb Hne Hc new adm w'.
  assert (Hne' : map VNum ids <> []) by (destruct ids; [congruence | discriminate]).
  assert (Hrun : publishAdmissions req w
                 = res_json 200 (message_body "Admissions successfully published.")
                     (after_publish (map VNum ids) w)).
  { rewrite (publishAdmissions_enters req _ w Hb Hne').
    unfold try_catch, bind. rewrite publish_loop by (intros i _; apply Hc).
    reflexivity. }
  subst w'. rewrite Hrun. cbn [fst snd res_json]. repeat split.
  subst new. rewrite length_map, found_count, filter_map_swap, length_map.
  reflexivity.
Qed.

Lemma publishAdmissions_inserts_found_witness :
  let req := publish_request [1%Z; 99%Z] in
  lookup "application_ids" (body req) = VArr (map VNum [1%Z; 99%Z]) /\
  [1%Z; 99%Z] <> [] /\
  (forall i, fault_at i two_applications = false) /\
  map status (sent (snd (publishAdmissions req two_applications))) = [200%Z] /\
  rows (admissions (db (snd (publishAdmissions req two_applications))))
  = [[("id", VNum 1); ("student_id", VStr "ST001"); ("course_id", VNum 3);
      ("institution_id", VNull); ("faculty_id", VNull);
      ("status", VStr "admitted")]].
Proof.
  intros req.
  assert (Hc : forall i, fault_at i two_applications = false)
    by (intros [|i]; reflexivity).
  split; [reflexivity | split; [discriminate | split; [exact Hc |]]].
  destruct (publishAdmissions_inserts_found req [1%Z; 99%Z] two_applications
              eq_refl ltac:(discriminate) Hc) as (_ & Hs & Ha & _).
  split.
  - rewrite Hs. reflexivity.
  - rewrite Ha. reflexivity.
Defined.

(** C6.  The loop runs over [pre ++ id :: post]; every query made for
    [pre] succeeds, and so does the SELECT for [id], which finds an
    application; the INSERT for [id] fails.  The request answers 500,
    and the admissions inserted for [pre] are in the table: nothing is
    rolled back, and [post] is never looked at. *)
Theorem publishAdmissions_partial_commit (req : Request) (pre post : list Z)
    (id : Z) (w : World) :
  lookup "application_ids" (body req) = VArr (map VNum (pre ++ id :: post)) ->
  find_application (VNum id) (db w) <> None ->
  let committed := map admission_of (found (map VNum pre) (db w)) in
  let k := S (queries_of (map VNum pre) (db w)) in
  clear k w ->
  fault_at k w = true ->
  let adm := admissions (db w) in
  let w' := snd (publishAdmissions req w) in
  fst (publishAdmissions req w) = inr tt /\
  sent w' = sent w ++ [mkResponse 500 (error_body "Error processing admissions.")] /\
  admissions (db w')
  = mkTable (rows adm ++ number_rows (next_id adm) committed)
            (next_id adm + Z.of_nat (List.length committed)).
Proof.
  intros Hb Hf committed k Hc Hk adm w'.
  assert (Hne : map VNum (pre ++ id :: post) <> [])
    by (destruct pre; discriminate).
  set (w1 := after_publish (map VNum pre) w).
  assert (Hsplit : clear (queries_of (map VNum pre) (db w)) w /\ clear 1 w1).
  { apply clear_split; [|reflexivity]. now rewrite Nat.add_1_r. }
  destruct Hsplit as [Hpre H0].
  assert (H1 : fault_at 1 w1 = true).
  { rewrite (fault_at_skipn 1 (queries_of (map VNum pre) (db w)) w w1 eq_refl).
    now rewrite Nat.add_1_r. }
  assert (Hrun : publishAdmissions req w
                 = res_json 500 (error_body "Error processing admissions.")
                     (set_faults (skipn 2 (faults w1)) w1)).
  { rewrite (publishAdmissions_enters req _ w Hb Hne).
    rewrite map_app. unfold try_catch. unfold bind at 1.
    rewrite for_of_app. unfold bind at 1.
    rewrite (publish_loop _ w Hpre). fold w1.
    cbn [map for_of]. unfold bind at 1.
    rewrite (publish_one_fault (VNum id) w1 Hf (H0 0 ltac:(lia)) H1).
    reflexivity. }
  subst w'. rewrite Hrun. repeat split.
Qed.

Lemma publishAdmissions_partial_commit_witness :
  let req := publish_request [1%Z; 2%Z] in
  let w := set_faults [false; false; false; true] two_applications in
  lookup "application_ids" (body req) = VArr (map VNum ([1%Z] ++ 2%Z :: [])) /\
  find_application (VNum 2) (db w) <> None /\
  clear 3 w /\
  fault_at 3 w = true /\
  map status (sent (snd (publishAdmissions req w))) = [500%Z] /\
  rows (admissions (db (snd (publishAdmissions req w))))
  = [[("id", VNum 1); ("student_id", VStr "ST001"); ("course_id", VNum 3);
      ("institution_id", VNull); ("faculty_id", VNull);
      ("status", VStr "admitted")]].
Proof.
  intros req w.
  assert (Hf : find_application (VNum 2) (db w) <> None) by discriminate.
  assert (Hc : clear 3 w) by (intros [|[|[|i]]] Hi; try reflexivity; lia).
  split; [reflexivity | split; [exact Hf | split; [exact Hc | split; [reflexivity |]]]].
  destruct (publishAdmissions_partial_commit req [1%Z] [] 2%Z w eq_refl Hf Hc eq_refl)
    as (_ & Hs & Ha).
  split.
  - rewrite Hs. reflexivity.
  - rewrite Ha. reflexivity.
Defined.

(** *** Registration and login *)

Lemma js_not_string (x : string) : x <> "" -> js_not (VStr x) = false.
Proof.
  intros H. unfold js_not. simpl. destruct (String.eqb_spec x ""); [contradiction | reflexivity].
Qed.

Lemma filter_absent {A : Type} (f : A -> bool) (l : list A) :
  existsb f l = false -> filter f l = [].
Proof.
  induction l as [|x l IH]; simpl; [reflexivity|].
  destruct (f x); simpl; [discriminate | exact IH].
Qed.

Section Accounts_facts.
Context {B : Bcrypt}.

Lemma register_run (req : Request) (f : FilePart)
    (name email password user_type : string) (w : World) :
  method req = POST ->
  path req = ["register"] ->
  part req = Some f ->
  fieldname f = "profilePicture" ->
  mentions_image_kind (mimetype f) ->
  lookup "name" (body req) = VStr name -> name <> "" ->
  lookup "email" (body req) = VStr email -> email <> "" ->
  lookup "password" (body req) = VStr password -> password <> "" ->
  lookup "user_type" (body req) = VStr user_type -> user_type <> "" ->
  fault_at 0 w = false ->
  let h := bcrypt_hash_string password (hd O (entropy w)) in
  let row := user_row (next_id (users (db w))) name email h user_type
               (picture_path f w) in
  dispatch app req w = (inr tt, after_register row (picture_path f w) w).
Proof.
  intros Hm Hp Hpart Hfield Hmime Hn Hn' He He' Hpw Hpw' Hu Hu' H0 h row.
  unfold app. cbn [dispatch route_method route_path]. rewrite Hm, Hp.
  cbn [method_eqb match_path String.eqb Ascii.eqb Bool.eqb route_stack].
  pose proof (upload_single_accepted "profilePicture" f (set_params [] req) w
                Hpart Hfield Hmime) as Hup.
  cbv zeta in Hup. fold (picture_path f w) in Hup.
  unfold bind at 1. rewrite Hup.
  unfold register.
  cbn [body set_file set_params req_file file].
  rewrite Hn, He, Hpw, Hu.
  rewrite (js_not_string _ Hn'), (js_not_string _ He'),
    (js_not_string _ Hpw'), (js_not_string _ Hu').
  cbn [orb js_not truthy negb]. unfold bind at 1. cbn [bcrypt_hash].
  unfold try_catch, bind. cbn [lift get_prop lookup String.eqb Ascii.eqb Bool.eqb ret].
  rewrite query_clear by exact H0.
  reflexivity.
Qed.

Lemma login_run (email password h : string) (user : Row) (rest : list Row)
    (w : World) :
  email <> "" ->
  password <> "" ->
  fault_at 0 w = false ->
  filter (matches "email" (VStr email)) (rows (users (db w))) = user :: rest ->
  lookup "password" user = VStr h ->
  dispatch app (login_request email password) w =
  (if bcrypt_compare_string password h
   then res_json 200
          (VObj [("message", VStr "Login successful");
                 ("user", VObj [("id", lookup "id" user);
                                ("user_type", lookup "user_type" user);
                                ("name", lookup "name" user);
                                ("email", lookup "email" user);
                                ("profile_picture", lookup "profile_picture" user)])])
   else res_json 401 (error_body "Invalid email or password."))
    (set_faults (tl (faults w)) w).
Proof.
  intros He Hp H0 Hrows Hh.
  unfold app, login_request, post_json.
  cbn [dispatch route_method route_path method path method_eqb match_path
       String.eqb Ascii.eqb Bool.eqb route_stack].
  unfold login. cbn [body set_params lookup String.eqb Ascii.eqb Bool.eqb].
  rewrite (js_not_string _ He), (js_not_string _ Hp). cbn [orb].
  unfold try_catch, bind. rewrite query_clear by exact H0.
  cbn [exec get_table result_rows to_sql]. rewrite Hrows, Hh.
  cbn [bcrypt_compare ret]. destruct (bcrypt_compare_string password h); reflexivity.
Qed.

End Accounts_facts.

(** C5, as the code has it.  A valid registration whose email no stored
    user has, on a connection that does not fail: the row stored holds
    the hash bcrypt returned for the password, which differs from the
    plaintext whenever bcrypt's output differs from its input.  A login
    with the same email then answers 200 with id, user_type, name, email
    and profile_picture of that row when bcrypt verifies the plaintext
    against the hash, and 401 for a non-empty plaintext that bcrypt does
    not verify. *)
Theorem register_then_login {B : Bcrypt} (req : Request) (f : FilePart)
    (name email password user_type other : string) (w : World) :
  method req = POST ->
  path req = ["register"] ->
  part req = Some f ->
  fieldname f = "profilePicture" ->
  mentions_image_kind (mimetype f) ->
  lookup "name" (body req) = VStr name -> name <> "" ->
  lookup "email" (body req) = VStr email -> email <> "" ->
  lookup "password" (body req) = VStr password -> password <> "" ->
  lookup "user_type" (body req) = VStr user_type -> user_type <> "" ->
  clear 2 w ->
  existsb (matches "email" (VStr email)) (rows (users (db w))) = false ->
  let h := bcrypt_hash_string password (hd O (entropy w)) in
  h <> password ->
  bcrypt_compare_string password h = true ->
  other <> "" ->
  bcrypt_compare_string other h = false ->
  let id := next_id (users (db w)) in
  let row := user_row id name email h user_type (picture_path f w) in
  let w1 := snd (dispatch app req w) in
  dispatch app req w = (inr tt, after_register row (picture_path f w) w) /\
  lookup "password" row = VStr h /\
  lookup "password" row <> VStr password /\
  sent (snd (dispatch app (login_request email password) w1))
  = sent w1 ++
    [mkResponse 200
       (VObj [("message", VStr "Login successful");
              ("user", VObj [("id", VNum id);
                             ("user_type", VStr user_type);
                             ("name", VStr name);
                             ("email", VStr email);
                             ("profile_picture", VStr (picture_path f w))])])] /\
  sent (snd (dispatch app (login_request email other) w1))
  = sent w1 ++ [mkResponse 401 (error_body "Invalid email or password.")].
Proof.
  intros Hm Hp Hpart Hfield Hmime Hn Hn' He He' Hpw Hpw' Hu Hu' Hc Hnew h
    Hdiff Hok Hother Hrej id row w1.
  pose proof (register_run req f name email password user_type w Hm Hp Hpart
                Hfield Hmime Hn Hn' He He' Hpw Hpw' Hu Hu' (clear_head _ _ Hc))
    as Hreg.
  cbv zeta in Hreg. fold h id row in Hreg.
  assert (Hw1 : w1 = after_register row (picture_path f w) w)
    by (subst w1; now rewrite Hreg).
  assert (H0 : fault_at 0 w1 = false).
  { rewrite Hw1. apply (clear_tl 1 w); [exact Hc | reflexivity | lia]. }
  assert (Hrows : filter (matches "email" (VStr email)) (rows (users (db w1)))
                  = [row]).
  { rewrite Hw1. cbn [after_register db set_table users rows].
    rewrite filter_app, (filter_absent _ _ Hnew).
    cbn [filter Datatypes.app]. unfold matches, row, user_row.
    cbn [lookup String.eqb Ascii.eqb Bool.eqb to_sql sql_eq].
    now rewrite String.eqb_refl. }
  split; [exact Hreg|]. split; [reflexivity|]. split; [intros [=]; congruence|].
  split.
  - rewrite (login_run email password h row [] w1 He' Hpw' H0 Hrows eq_refl).
    rewrite Hok. reflexivity.
  - rewrite (login_run email other h row [] w1 He' Hother H0 Hrows eq_refl).
    rewrite Hrej. reflexivity.
Qed.

Lemma register_then_login_witness :
  let f := mkFilePart "profilePicture" "me.png" "image/png" in
  let req := register_request "A" "a@x.com" "pw" "student" f in
  let w1 := snd (dispatch (@app sim_bcrypt) req fresh) in
  mentions_image_kind (mimetype f) /\
  clear 2 fresh /\
  map status (sent w1) = [201%Z] /\
  lookup "password" (hd [] (rows (users (db w1)))) = VStr "$2b$10$0$pw" /\
  map status (sent (snd (dispatch (@app sim_bcrypt) (login_request "a@x.com" "pw") w1)))
  = [201%Z; 200%Z] /\
  map status (sent (snd (dispatch (@app sim_bcrypt) (login_request "a@x.com" "wrong") w1)))
  = [201%Z; 401%Z].
Proof.
  intros f req w1.
  assert (Hmime : mentions_image_kind (mimetype f))
    by (apply filetypes_test_spec; reflexivity).
  assert (Hc : clear 2 fresh) by (intros [|[|i]] _; reflexivity).
  split; [exact Hmime | split; [exact Hc |]].
  destruct (@register_then_login sim_bcrypt req f "A" "a@x.com" "pw" "student"
              "wrong" fresh eq_refl eq_refl eq_refl eq_refl Hmime
              eq_refl ltac:(discriminate) eq_refl ltac:(discriminate)
              eq_refl ltac:(discriminate) eq_refl ltac:(discriminate)
              Hc eq_refl ltac:(discriminate) eq_refl ltac:(discriminate) eq_refl)
    as (Hreg & _ & _ & Hgood & Hbad).
  fold w1 in Hgood, Hbad.
  assert (Hw1 : map status (sent w1) = [201%Z]) by (subst w1; now rewrite Hreg).
  split; [exact Hw1|]. split; [subst w1; now rewrite Hreg|].
  split.
  - rewrite Hgood, map_app, Hw1. reflexivity.
  - rewrite Hbad, map_app, Hw1. reflexivity.
Defined.

(** Two ways the claim fails.  After two successful registrations under
    one email with different passwords, a login with the second password
    is compared with the first row and answers 401.  And a login whose
    plaintext is the empty string, which is another plaintext than the
    registered one, answers 400 and not 401. *)
Lemma login_after_registration_fails :
  let f := mkFilePart "profilePicture" "me.png" "image/png" in
  let w1 := snd (dispatch (@app sim_bcrypt)
                   (register_request "A" "a@x.com" "pw1" "student" f) fresh) in
  let w2 := snd (dispatch (@app sim_bcrypt)
                   (register_request "B" "a@x.com" "pw2" "student" f) w1) in
  map status (sent w2) = [201%Z; 201%Z] /\
  map (lookup "password") (rows (users (db w2)))
  = [VStr "$2b$10$0$pw1"; VStr "$2b$10$0$pw2"] /\
  sent (snd (dispatch (@app sim_bcrypt) (login_request "a@x.com" "pw2") w2))
  = sent w2 ++ [mkResponse 401 (error_body "Invalid email or password.")] /\
  sent (snd (dispatch (@app sim_bcrypt) (login_request "a@x.com" "") w1))
  = sent w1 ++ [mkResponse 400 (error_body "Please provide both email and password.")].
Proof.
  repeat split.
Qed.

(** *** The grades of POST /apply *)




(** C2 at the failing input: nine pairs.  The ninth assignment extends
    both arrays, so the parameters hold nine subjects and nine grades,
    25 values in all; the statement takes the first 20, the ninth subject
    among them, and they are not the values it takes for the first eight
    pairs.  Both requests are refused by the server with 500, the
    statement having 20 values for 23 columns. *)
Theorem apply_keeps_ninth_pair :
  forEach (VArr nine_grades) store_grade
    (Array_fill 8 (VStr ""), Array_fill 8 (VStr ""))
  = inr (map VStr ["S1"; "S2"; "S3"; "S4"; "S5"; "S6"; "S7"; "S8"; "S9"],
         map VStr ["G1"; "G2"; "G3"; "G4"; "G5"; "G6"; "G7"; "G8"; "G9"]) /\
  option_map (@List.length value) (params_of (apply_request nine_grades)) = Some 25 /\
  option_map (@List.length value) (params_of (apply_request (firstn 8 nine_grades)))
  = Some 23 /\
  lookup "subject5" (column_values (apply_request nine_grades)) = VStr "S9" /\
  lookup "subject5" (column_values (apply_request (firstn 8 nine_grades))) = VStr "G1" /\
  column_values (apply_request nine_grades)
  <> column_values (apply_request (firstn 8 nine_grades)) /\
  map status (sent (snd (dispatch (@app sim_bcrypt) (apply_request nine_grades) fresh)))
  = [500%Z] /\
  map status (sent (snd (dispatch (@app sim_bcrypt)
                           (apply_request (firstn 8 nine_grades)) fresh)))
  = [500%Z].
Proof.
  repeat split; discriminate.
Qed.

(** C8 at the failing input: the single pair Math/A.  The parameters
    list the eight subjects and then the eight grades, while the columns
    alternate subject and grade: the statement has the empty string at
    grade1 and the grade A at subject5.  The server refuses the statement,
    which has 20 values for 23 columns: the answer is 500 and no row is
    stored. *)
Theorem apply_misaligns_grades :
  let req := apply_request [grade_pair "Math" "A"] in
  lookup "subject1" (column_values req) = VStr "Math" /\
  lookup "grade1" (column_values req) = VStr "" /\
  lookup "subject5" (column_values req) = VStr "A" /\
  List.length application_columns = 23 /\
  List.length application_values = 20 /\
  dispatch (@app sim_bcrypt) req fresh
  = (inr tt,
     set_sent [mkResponse 500
                 (error_body "Database error during application submission.")]
       fresh) /\
  rows (applications (db (snd (dispatch (@app sim_bcrypt) req fresh)))) = [].
Proof.
  repeat split.
Qed.

(** ** Further properties *)

(** *** The loop over the grades *)

Lemma js_set_at (done todo : list value) (v : value) :
  js_set (done ++ todo) (List.length done) v = done ++ v :: tl todo.
Proof.
  induction done as [|d done IH]; simpl.
  - now destruct todo.
  - now rewrite IH.
Qed.

Lemma store_grade_at (g : value) (done1 todo1 done2 todo2 : list value) :
  nullish g = false ->
  List.length done1 = List.length done2 ->
  store_grade g (List.length done1) (done1 ++ todo1, done2 ++ todo2)
  = inr ((done1 ++ [subject_of g]) ++ tl todo1, (done2 ++ [grade_of g]) ++ tl todo2).
Proof.
  intros Hg Hlen. unfold store_grade, subject_of, grade_of, field.
  destruct g; try discriminate; cbn [get_prop fst snd];
    rewrite js_set_at, Hlen, js_set_at, <- !app_assoc; reflexivity.
Qed.

Lemma skipn_tl {A : Type} (n : nat) (l : list A) : skipn n (tl l) = skipn (S n) l.
Proof. destruct l; [now destruct n | reflexivity]. Qed.

Lemma forEach_from_store (gs : list value) :
  forallb (fun g => negb (nullish g)) gs = true ->
  forall done1 todo1 done2 todo2,
    List.length done1 = List.length done2 ->
    forEach_from store_grade gs (List.length done1) (done1 ++ todo1, done2 ++ todo2)
    = inr (done1 ++ map subject_of gs ++ skipn (List.length gs) todo1,
           done2 ++ map grade_of gs ++ skipn (List.length gs) todo2).
Proof.
  induction gs as [|g gs IH]; intros Hall done1 todo1 done2 todo2 Hlen.
  - reflexivity.
  - cbn [forallb] in Hall. apply andb_true_iff in Hall as [Hg Hall].
    apply negb_true_iff in Hg.
    cbn [forEach_from]. rewrite (store_grade_at g _ _ _ _ Hg Hlen).
    replace (S (List.length done1)) with (List.length (done1 ++ [subject_of g]))
      by (rewrite length_app; simpl; lia).
    rewrite (IH Hall) by (rewrite !length_app; simpl; lia).
    rewrite !skipn_tl, <- !app_assoc. reflexivity.
Qed.

Lemma skipn_repeat_sub {A : Type} (x : A) (n m : nat) :
  skipn n (repeat x m) = repeat x (m - n).
Proof.
  revert m. induction n as [|n IH]; intros m.
  - now rewrite Nat.sub_0_r.
  - destruct m; [reflexivity | apply IH].
Qed.

(** X1.  For an array of grades without null entries, the loop of the
    application handlers ends with the subjects and the grades of the
    entries, each defaulted to the empty string, in input order, padded
    with empty strings up to eight: both arrays have the same length,
    which is eight for at most eight entries and the number of entries
    beyond that. *)
Theorem grades_loop_pads_to_eight (gs : list value) :
  forallb (fun g => negb (nullish g)) gs = true ->
  forEach (VArr gs) store_grade (Array_fill 8 (VStr ""), Array_fill 8 (VStr ""))
  = inr (map subject_of gs ++ repeat (VStr "") (8 - List.length gs),
         map grade_of gs ++ repeat (VStr "") (8 - List.length gs)) /\
  List.length (map subject_of gs ++ repeat (VStr "") (8 - List.length gs))
  = Nat.max 8 (List.length gs).
Proof.
  intros Hall. split.
  - cbn [forEach]. unfold Array_fill.
    pose proof (forEach_from_store gs Hall [] (repeat (VStr "") 8) []
                  (repeat (VStr "") 8) eq_refl) as H.
    cbn [List.length Datatypes.app] in H. rewrite H, skipn_repeat_sub. reflexivity.
  - rewrite length_app, length_map, repeat_length. lia.
Qed.

Lemma grades_loop_pads_to_eight_witness :
  forallb (fun g => negb (nullish g)) [grade_pair "Math" "A"; VObj []] = true /\
  forEach (VArr [grade_pair "Math" "A"; VObj []]) store_grade
    (Array_fill 8 (VStr ""), Array_fill 8 (VStr ""))
  = inr (VStr "Math" :: repeat (VStr "") 7, VStr "A" :: repeat (VStr "") 7).
Proof.
  split; [reflexivity|].
  exact (proj1 (grades_loop_pads_to_eight [grade_pair "Math" "A"; VObj []] eq_refl)).
Defined.

(** *** The second binding of POST /apply *)



(** *** DELETE /institutions/:id, further *)




(** X4.  Whatever the request and whether or not the statement fails,
    [deleteInstitution] touches no table but institutions, and there it
    only removes rows: faculties and courses that refer to the deleted
    institution stay as they are. *)
Theorem deleteInstitution_no_cascade (req : Request) (w : World) :
  let w' := snd (deleteInstitution req w) in
  users (db w') = users (db w) /\
  faculties (db w') = faculties (db w) /\
  courses (db w') = courses (db w) /\
  applications (db w') = applications (db w) /\
  admissions (db w') = admissions (db w) /\
  next_id (institutions (db w')) = next_id (institutions (db w)) /\
  (forall r, In r (rows (institutions (db w'))) -> In r (rows (institutions (db w)))).
Proof.
  destruct (fault_at 0 w) eqn:H0.
  - unfold deleteInstitution, try_catch, bind, query, fault_at in *.
    destruct (faults w) as [|[|] fl]; try discriminate. cbn. repeat split; auto.
  - rewrite (deleteInstitution_run req w H0). cbv zeta.
    destruct (Z.of_nat _ >? 0)%Z; cbn; repeat split; auto;
      intros r Hr; apply filter_In in Hr; tauto.
Qed.

Lemma Z_string_round_trip (n : Z) : Z_of_string (string_of_Z n) = Some n.
Proof.
  unfold Z_of_string, string_of_Z.
  assert (H : NilZero.int_of_string (NilZero.string_of_int (Z.to_int n))
              = Some (Z.to_int n)).
  { apply NilZero.isi; destruct n as [|q|q]; cbn; try discriminate;
      intros [= H]; revert H; apply DecimalPos.Unsigned.to_uint_nonnil. }
  rewrite H. cbn. now rewrite DecimalZ.of_to.
Qed.

Lemma matches_url_id (n : Z) (r : Row) :
  numeric_id r -> matches "id" (VStr (string_of_Z n)) r = has_id n r.
Proof.
  intros [m Hm]. unfold matches, has_id. rewrite Hm. cbn [to_sql sql_eq].
  now rewrite Z_string_round_trip.
Qed.

Lemma deleteInstitution_numeric (req : Request) (n : Z) (w : World) :
  lookup "id" (params req) = VStr (string_of_Z n) ->
  fault_at 0 w = false ->
  Forall numeric_id (rows (institutions (db w))) ->
  existsb (has_id n) (rows (institutions (db w))) = true ->
  deleteInstitution req w
  = res_json 200 (message_body "Institution deleted successfully.")
      (set_db (set_table Institutions
                 (mkTable (filter (fun r => negb (has_id n r))
                             (rows (institutions (db w))))
                          (next_id (institutions (db w))))
                 (db w))
              (set_faults (tl (faults w)) w)).
Proof.
  intros Hid H0 Hnum Hex.
  rewrite (deleteInstitution_run req w H0). cbv zeta. rewrite Hid.
  assert (Hm : forall r, In r (rows (institutions (db w))) ->
                         matches "id" (VStr (string_of_Z n)) r = has_id n r).
  { intros r Hr. apply matches_url_id. rewrite Forall_forall in Hnum. now apply Hnum. }
  rewrite (filter_ext_in _ (has_id n) _ Hm), (filter_some _ _ Hex).
  unfold after_delete.
  now rewrite (filter_ext_in _ (fun r => negb (has_id n r)) _
                 (fun r Hr => f_equal negb (Hm r Hr))).
Qed.

(** X5.  The id of the URL reaches the statement as the decimal text of
    the number and is compared as a number: on a table whose ids are
    numbers, [DELETE /institutions/<n>] removes exactly the rows with id
    [n], and answers 200 when there was one. *)
Theorem delete_by_url_removes_id {B : Bcrypt} (n : Z) (w : World) :
  fault_at 0 w = false ->
  Forall numeric_id (rows (institutions (db w))) ->
  existsb (has_id n) (rows (institutions (db w))) = true ->
  let w' := snd (dispatch app (delete_request n) w) in
  fst (dispatch app (delete_request n) w) = inr tt /\
  sent w' = sent w ++ [mkResponse 200 (message_body "Institution deleted successfully.")] /\
  rows (institutions (db w'))
  = filter (fun r => negb (has_id n r)) (rows (institutions (db w))).
Proof.
  intros H0 Hnum Hex.
  assert (Hdisp : dispatch app (delete_request n) w
                  = deleteInstitution
                      (set_params [("id", VStr (string_of_Z n))] (delete_request n)) w)
    by reflexivity.
  rewrite Hdisp,
    (deleteInstitution_numeric
       (set_params [("id", VStr (string_of_Z n))] (delete_request n)) n w
       eq_refl H0 Hnum Hex).
  repeat split.
Qed.

Lemma delete_by_url_removes_id_witness :
  fault_at 0 small_catalogue = false /\
  Forall numeric_id (rows (institutions (db small_catalogue))) /\
  existsb (has_id 5) (rows (institutions (db small_catalogue))) = true /\
  map (lookup "name")
    (rows (institutions (db (snd (dispatch (@app sim_bcrypt) (delete_request 5)
                                    small_catalogue)))))
  = [VStr "LUCT"].
Proof.
  assert (Hn : Forall numeric_id (rows (institutions (db small_catalogue))))
    by (repeat constructor; eexists; reflexivity).
  split; [reflexivity | split; [exact Hn | split; [reflexivity |]]].
  destruct (@delete_by_url_removes_id sim_bcrypt 5 small_catalogue eq_refl Hn eq_refl)
    as (_ & _ & Hrows).
  rewrite Hrows. reflexivity.
Defined.

(** *** Which handlers always answer *)

Create HintDb answers.

Lemma quiet_ret {A : Type} (a : A) : quiet (ret a).
Proof. intros w. reflexivity. Qed.

Lemma quiet_throw {A : Type} (e : exn) : quiet (@throw A e).
Proof. intros w. reflexivity. Qed.

Lemma quiet_lift {A : Type} (r : exn + A) : quiet (lift r).
Proof. destruct r; intros w; reflexivity. Qed.

Lemma quiet_bind {A C : Type} (m : M A) (k : A -> M C) :
  quiet m -> (forall a, quiet (k a)) -> quiet (bind m k).
Proof.
  intros Hm Hk w. unfold bind. specialize (Hm w).
  destruct (m w) as [[e|a] w1]; simpl in *; [exact Hm|].
  now rewrite Hk.
Qed.

Lemma quiet_query (q : statement) (ps : list value) : quiet (query q ps).
Proof.
  intros w. unfold query.
  destruct (faults w) as [|[|] fl]; try reflexivity;
    destruct (exec q ps (db w)) as [e|[r d]]; reflexivity.
Qed.

Lemma quiet_query_more (q : statement_more) (ps : list value) :
  quiet (query_more q ps).
Proof.
  intros w. unfold query_more.
  destruct (faults w) as [|[|] fl]; try reflexivity;
    destruct (exec_more q ps (db w)) as [e|[r d]]; reflexivity.
Qed.

Lemma quiet_bcrypt_compare {B : Bcrypt} (a b : value) : quiet (bcrypt_compare a b).
Proof. intros w. now destruct a, b. Qed.

Lemma quiet_publish_one (id : value) : quiet (publish_one id).
Proof.
  unfold publish_one. apply quiet_bind; [apply quiet_query|].
  intros data. destruct (result_rows data); [apply quiet_ret|].
  apply quiet_bind; [apply quiet_query | intros; apply quiet_ret].
Qed.

Lemma quiet_for_of {A : Type} (f : A -> M unit) (xs : list A) :
  (forall x, quiet (f x)) -> quiet (for_of xs f).
Proof.
  intros Hf. induction xs as [|x xs IH]; [apply quiet_ret|].
  apply quiet_bind; [apply Hf | intros; exact IH].
Qed.

#[local] Hint Resolve quiet_ret quiet_throw quiet_lift quiet_query quiet_query_more
  quiet_bcrypt_compare quiet_publish_one quiet_for_of : answers.

Lemma careful_res_json (s : Z) (b : value) : careful (res_json s b).
Proof. intros w. right. now exists (mkResponse s b). Qed.

Lemma careful_bind {A : Type} (m : M A) (k : A -> M unit) :
  quiet m -> (forall a, careful (k a)) -> careful (bind m k).
Proof.
  intros Hm Hk w. unfold bind. specialize (Hm w).
  destruct (m w) as [[e|a] w1]; simpl in *.
  - left. now exists e.
  - rewrite <- Hm. apply Hk.
Qed.

Lemma res_json_answers (s : Z) (b : value) (w : World) :
  exists r, fst (res_json s b w) = inr tt /\ sent (snd (res_json s b w)) = sent w ++ [r].
Proof. now exists (mkResponse s b). Qed.

Lemma try_catch_answers (m : M unit) (s : Z) (b : value) (w : World) :
  careful m ->
  exists r, fst (try_catch m (fun _ => res_json s b) w) = inr tt /\
            sent (snd (try_catch m (fun _ => res_json s b) w)) = sent w ++ [r].
Proof.
  intros Hm. unfold try_catch. specialize (Hm w).
  destruct (m w) as [[e|[]] w1]; simpl in *.
  - destruct Hm as [(e' & _ & Hs)|(r & H & _)]; [|discriminate].
    exists (mkResponse s b). now rewrite <- Hs.
  - destruct Hm as [(e' & H & _)|(r & _ & Hs)]; [discriminate|].
    now exists r.
Qed.

Ltac careful_steps :=
  repeat first
    [ apply careful_res_json
    | apply careful_bind; [solve [auto with answers] | intros]
    | match goal with
      | |- careful (if ?c then _ else _) => destruct c
      | |- careful (match ?x with _ => _ end) => destruct x
      end ].

Ltac answers_steps :=
  intros req w;
  repeat match goal with
         | |- context [if ?c then res_json _ _ else _] => destruct c
         end;
  first [ apply res_json_answers | apply try_catch_answers; careful_steps ].

(** X6.  These handlers answer every request exactly once, with no
    exception left: whatever the body and whether or not the connection
    or bcrypt fails, one response is written and the handler returns. *)
Theorem handlers_that_always_answer {B : Bcrypt} :
  answers_once login /\
  answers_once deleteInstitution /\
  answers_once apply_second /\
  answers_once publishAdmissions /\
  answers_once listUsers /\
  answers_once listInstitutions /\
  answers_once listUniversities /\
  answers_once listCourses /\
  answers_once listFaculties /\
  answers_once createInstitution /\
  answers_once createFaculty /\
  answers_once createCourse /\
  answers_once updateProfile.
Proof.
  repeat split.
  - unfold login. answers_steps.
  - unfold deleteInstitution. answers_steps.
  - unfold apply_second. answers_steps.
  - unfold publishAdmissions. answers_steps.
  - unfold listUsers. answers_steps.
  - unfold listInstitutions. answers_steps.
  - unfold listUniversities. answers_steps.
  - unfold listCourses. answers_steps.
  - unfold listFaculties. answers_steps.
  - unfold createInstitution. answers_steps.
  - unfold createFaculty. answers_steps.
  - unfold createCourse. answers_steps.
  - intros req w. unfold updateProfile, req_file.
    destruct (_ || _); [apply res_json_answers|].
    destruct (file req); cbn [truthy lift get_prop]; unfold bind at 1;
      cbn [ret bind fst snd]; apply try_catch_answers; careful_steps.
Qed.

(** X7.  These three do not: a request can pass their validation and
    leave them with an exception thrown outside their [try], before any
    response is written.  For the application handlers it is the loop
    over a missing [grades] (first [/apply]) or a [grades] that is no
    array ([/applications]); for [register] it is [bcrypt.hash] on a
    password that is no string. *)
Theorem handlers_that_can_stay_silent {B : Bcrypt} :
  ~ answers_once apply_first /\
  ~ answers_once applications_handler /\
  ~ answers_once register.
Proof.
  split; [|split]; intros H.
  - destruct (H (post_json "apply" scalar_fields) fresh) as (r & Hf & _).
    discriminate.
  - destruct (H (post_json "applications"
                   (scalar_fields ++ [("grades", VStr "A")])) fresh)
      as (r & Hf & _).
    discriminate.
  - destruct (H (mkRequest POST ["register"]
                   [("name", VStr "A"); ("email", VStr "a@x.com");
                    ("password", VArr [VStr "pw"]); ("user_type", VStr "student")]
                   None [] (Some "uploads/1_me.png")) fresh)
      as (r & Hf & _).
    discriminate.
Qed.

(** *** POST /publish-admissions, further *)

Lemma publishAdmissions_run (req : Request) (ids : list value) (w : World) :
  lookup "application_ids" (body req) = VArr ids ->
  ids <> [] ->
  clear (queries_of ids (db w)) w ->
  publishAdmissions req w
  = res_json 200 (message_body "Admissions successfully published.")
      (after_publish ids w).
Proof.
  intros Hb Hne Hc. rewrite (publishAdmissions_enters req ids w Hb Hne).
  unfold try_catch, bind. now rewrite (publish_loop ids w Hc).
Qed.

(** X8.  The answer of [/publish-admissions] is 400 exactly when
    [application_ids] is not an array with at least one element, and
    then no query is made; for such an array the answer is 200 or 500. *)
Theorem publishAdmissions_rejects_bad_list (req : Request) (w : World) :
  let ids := lookup "application_ids" (body req) in
  (nonempty_array ids = false ->
   publishAdmissions req w
   = res_json 400 (error_body "No application IDs provided to process.") w) /\
  (nonempty_array ids = true ->
   exists r, sent (snd (publishAdmissions req w)) = sent w ++ [r] /\
             (status r = 200%Z \/ status r = 500%Z)).
Proof.
  intros ids. split; intros Hne.
  - unfold publishAdmissions. fold ids.
    destruct ids as [| | | | |[|x xs]|]; try discriminate;
      cbn [Array_isArray negb]; rewrite ?orb_true_r; reflexivity.
  - destruct ids as [| | | | |[|x xs]|] eqn:E; try discriminate.
    rewrite (publishAdmissions_enters req (x :: xs) w E ltac:(discriminate)).
    unfold try_catch, bind.
    pose proof (quiet_for_of publish_one (x :: xs) quiet_publish_one w) as Hq.
    destruct (for_of (x :: xs) publish_one w) as [[e|[]] w1]; cbn in *;
      rewrite Hq; eexists; split; try reflexivity; cbn; auto.
Qed.

Lemma clear_all_after_publish (ids : list value) (w : World) :
  (forall i, fault_at i w = false) ->
  forall i, fault_at i (after_publish ids w) = false.
Proof.
  intros H i.
  rewrite (fault_at_skipn i (queries_of ids (db w)) w (after_publish ids w) eq_refl).
  apply H.
Qed.

(** X9.  Publishing is not idempotent: the same list published twice, on
    a connection that does not fail, leaves every admission twice, the
    second batch numbered after the first, and both answers are 200. *)
Theorem publishAdmissions_twice_duplicates (req : Request) (ids : list Z) (w : World) :
  lookup "application_ids" (body req) = VArr (map VNum ids) ->
  ids <> [] ->
  (forall i, fault_at i w = false) ->
  let new := map admission_of (found (map VNum ids) (db w)) in
  let adm := admissions (db w) in
  let w2 := snd (publishAdmissions req (snd (publishAdmissions req w))) in
  map status (sent w2) = map status (sent w) ++ [200%Z; 200%Z] /\
  rows (admissions (db w2))
  = rows adm ++ number_rows (next_id adm) new
    ++ number_rows (next_id adm + Z.of_nat (List.length new)) new.
Proof.
  intros Hb Hne Hc new adm w2.
  assert (Hne' : map VNum ids <> []) by (destruct ids; [congruence | discriminate]).
  pose proof (publishAdmissions_run req _ w Hb Hne' (fun i _ => Hc i)) as H1.
  set (w1 := snd (publishAdmissions req w)) in *.
  assert (Hw1 : w1 = set_sent (sent w ++ [mkResponse 200
                        (message_body "Admissions successfully published.")])
                       (after_publish (map VNum ids) w))
    by (subst w1; now rewrite H1).
  assert (Hc1 : forall i, fault_at i w1 = false).
  { intros i. rewrite Hw1. apply (clear_all_after_publish _ w Hc i). }
  pose proof (publishAdmissions_run req _ w1 Hb Hne' (fun i _ => Hc1 i)) as H2.
  subst w2. rewrite H2. rewrite Hw1.
  cbn [snd res_json sent set_sent after_publish db set_db set_faults set_table
       admissions rows next_id applications].
  split.
  - rewrite !map_app. cbn. now rewrite <- app_assoc.
  - now rewrite <- app_assoc.
Qed.

Lemma publishAdmissions_twice_duplicates_witness :
  let req := publish_request [2%Z] in
  lookup "application_ids" (body req) = VArr (map VNum [2%Z]) /\
  [2%Z] <> [] /\
  (forall i, fault_at i two_applications = false) /\
  map (lookup "student_id")
    (rows (admissions (db (snd (publishAdmissions req
                                  (snd (publishAdmissions req two_applications)))))))
  = [VStr "ST002"; VStr "ST002"].
Proof.
  intros req.
  assert (Hc : forall i, fault_at i two_applications = false)
    by (intros [|i]; reflexivity).
  split; [reflexivity | split; [discriminate | split; [exact Hc |]]].
  destruct (publishAdmissions_twice_duplicates req [2%Z] two_applications
              eq_refl ltac:(discriminate) Hc) as (_ & Hrows).
  rewrite Hrows. reflexivity.
Defined.

Lemma publishAdmissions_rejects_bad_list_witness :
  nonempty_array (lookup "application_ids"
                    (body (post_json "publish-admissions"
                             [("application_ids", VStr "1,2")]))) = false /\
  map status (sent (snd (publishAdmissions
                           (post_json "publish-admissions"
                              [("application_ids", VStr "1,2")]) two_applications)))
  = [400%Z].
Proof.
  split; [reflexivity|].
  rewrite (proj1 (publishAdmissions_rejects_bad_list
                    (post_json "publish-admissions" [("application_ids", VStr "1,2")])
                    two_applications) eq_refl).
  reflexivity.
Defined.

(** *** Registration and login, further *)

Section Accounts_more.
Context {B : Bcrypt}.

Lemma register_route_reaches (req : Request) (f : FilePart) (w : World) :
  method req = POST ->
  path req = ["register"] ->
  part req = Some f ->
  fieldname f = "profilePicture" ->
  mentions_image_kind (mimetype f) ->
  dispatch app req w
  = register (set_file (picture_path f w) (set_params [] req))
      (set_disk (disk w ++ [picture_path f w]) w).
Proof.
  intros Hm Hp Hpart Hfield Hmime.
  unfold app. cbn [dispatch route_method route_path]. rewrite Hm, Hp.
  cbn [method_eqb match_path String.eqb Ascii.eqb Bool.eqb route_stack].
  pose proof (upload_single_accepted "profilePicture" f (set_params [] req) w
                Hpart Hfield Hmime) as Hup.
  cbv zeta in Hup. fold (picture_path f w) in Hup.
  unfold bind at 1. now rewrite Hup.
Qed.

(** X10.  The picture is stored before the handler looks at the fields:
    a registration with an accepted picture and a required field missing
    is answered 400 and adds no user, and the file stays under uploads/. *)
Theorem register_missing_field_keeps_upload (req : Request) (f : FilePart)
    (w : World) :
  method req = POST ->
  path req = ["register"] ->
  part req = Some f ->
  fieldname f = "profilePicture" ->
  mentions_image_kind (mimetype f) ->
  existsb (fun k => js_not (lookup k (body req)))
    ["name"; "email"; "password"; "user_type"] = true ->
  dispatch app req w
  = (inr tt,
     mkWorld (db w) (faults w) (clock w) (entropy w)
       (disk w ++ [picture_path f w])
       (sent w ++ [mkResponse 400 (error_body
          "Please provide name, email, password, user_type, and a profile picture.")])).
Proof.
  intros Hm Hp Hpart Hfield Hmime Hmiss.
  rewrite (register_route_reaches req f w Hm Hp Hpart Hfield Hmime).
  unfold register. cbn [body set_file set_params].
  cbn [existsb] in Hmiss. rewrite orb_false_r, !orb_assoc in Hmiss.
  rewrite Hmiss. reflexivity.
Qed.

(** X11.  The same when the INSERT fails: the answer is 500, no user is
    added, and the picture written for the request stays under uploads/. *)
Theorem register_failure_keeps_upload (req : Request) (f : FilePart)
    (name email password user_type : string) (w : World) :
  method req = POST ->
  path req = ["register"] ->
  part req = Some f ->
  fieldname f = "profilePicture" ->
  mentions_image_kind (mimetype f) ->
  lookup "name" (body req) = VStr name -> name <> "" ->
  lookup "email" (body req) = VStr email -> email <> "" ->
  lookup "password" (body req) = VStr password -> password <> "" ->
  lookup "user_type" (body req) = VStr user_type -> user_type <> "" ->
  fault_at 0 w = true ->
  dispatch app req w
  = (inr tt,
     mkWorld (db w) (tl (faults w)) (clock w) (tl (entropy w))
       (disk w ++ [picture_path f w])
       (sent w ++ [mkResponse 500 (error_body "Database error during registration.")])).
Proof.
  intros Hm Hp Hpart Hfield Hmime Hn Hn' He He' Hpw Hpw' Hu Hu' H0.
  rewrite (register_route_reaches req f w Hm Hp Hpart Hfield Hmime).
  unfold register. cbn [body set_file set_params req_file file].
  rewrite Hn, He, Hpw, Hu.
  rewrite (js_not_string _ Hn'), (js_not_string _ He'),
    (js_not_string _ Hpw'), (js_not_string _ Hu').
  cbn [orb js_not truthy negb]. unfold bind at 1. cbn [bcrypt_hash].
  unfold try_catch, bind, query, fault_at in *.
  cbn [lift get_prop lookup String.eqb Ascii.eqb Bool.eqb ret faults set_entropy
       set_disk] in *.
  destruct (faults w) as [|[|] fl]; try discriminate. reflexivity.
Qed.


(** X13.  When the user exists and the password sent is not a string,
    [bcrypt.compare] throws inside the [try]: the answer is the 500 of
    the [catch], with its message about the database. *)
Theorem login_password_not_a_string (req : Request) (user : Row) (rest : list Row)
    (w : World) :
  truthy (lookup "email" (body req)) = true ->
  truthy (lookup "password" (body req)) = true ->
  (forall p, lookup "password" (body req) <> VStr p) ->
  fault_at 0 w = false ->
  filter (matches "email" (lookup "email" (body req))) (rows (users (db w)))
  = user :: rest ->
  login req w
  = (inr tt,
     mkWorld (db w) (tl (faults w)) (clock w) (entropy w) (disk w)
       (sent w ++ [mkResponse 500 (error_body "Database query error.")])).
Proof.
  intros He Hp Hns H0 Hrows. unfold login.
  rewrite (truthy_not _ He), (truthy_not _ Hp). cbn [orb].
  unfold try_catch, bind. rewrite query_clear by exact H0.
  cbn [exec get_table result_rows]. rewrite Hrows.
  destruct w as [d fl ck en dk st].
  destruct (lookup "password" (body req)) as [| | | |p| |];
    try reflexivity.
  now contradiction (Hns p).
Qed.

End Accounts_more.

Lemma register_missing_field_keeps_upload_witness :
  let req := register_request "" "a@x.com" "pw" "student" png_picture in
  mentions_image_kind (mimetype png_picture) /\
  existsb (fun k => js_not (lookup k (body req)))
    ["name"; "email"; "password"; "user_type"] = true /\
  map status (sent (snd (dispatch (@app sim_bcrypt) req fresh))) = [400%Z] /\
  disk (snd (dispatch (@app sim_bcrypt) req fresh)) = ["uploads/1700000000000_me.png"] /\
  rows (users (db (snd (dispatch (@app sim_bcrypt) req fresh)))) = [].
Proof.
  intros req.
  assert (Hmime : mentions_image_kind (mimetype png_picture))
    by (apply filetypes_test_spec; reflexivity).
  split; [exact Hmime | split; [reflexivity |]].
  rewrite (@register_missing_field_keeps_upload sim_bcrypt req png_picture fresh
             eq_refl eq_refl eq_refl eq_refl Hmime eq_refl).
  repeat split.
Defined.

Lemma register_failure_keeps_upload_witness :
  let req := register_request "A" "a@x.com" "pw" "student" png_picture in
  let w := set_faults [true] fresh in
  mentions_image_kind (mimetype png_picture) /\
  fault_at 0 w = true /\
  map status (sent (snd (dispatch (@app sim_bcrypt) req w))) = [500%Z] /\
  disk (snd (dispatch (@app sim_bcrypt) req w)) = ["uploads/1700000000000_me.png"] /\
  rows (users (db (snd (dispatch (@app sim_bcrypt) req w)))) = [].
Proof.
  intros req w.
  assert (Hmime : mentions_image_kind (mimetype png_picture))
    by (apply filetypes_test_spec; reflexivity).
  split; [exact Hmime | split; [reflexivity |]].
  rewrite (@register_failure_keeps_upload sim_bcrypt req png_picture
             "A" "a@x.com" "pw" "student" w
             eq_refl eq_refl eq_refl eq_refl Hmime
             eq_refl ltac:(discriminate) eq_refl ltac:(discriminate)
             eq_refl ltac:(discriminate) eq_refl ltac:(discriminate) eq_refl).
  repeat split.
Defined.


Lemma login_password_not_a_string_witness :
  let req := post_json "login" [("email", VStr "a@x.com"); ("password", VNum 123)] in
  truthy (lookup "password" (body req)) = true /\
  (forall p, lookup "password" (body req) <> VStr p) /\
  fault_at 0 one_user = false /\
  map status (sent (snd (@login sim_bcrypt req one_user))) = [500%Z].
Proof.
  intros req.
  assert (Hns : forall p, lookup "password" (body req) <> VStr p)
    by (intros p; discriminate).
  split; [reflexivity | split; [exact Hns | split; [reflexivity |]]].
  rewrite (@login_password_not_a_string sim_bcrypt req _ [] one_user
             eq_refl eq_refl Hns eq_refl eq_refl).
  reflexivity.
Defined.

(** *** Handlers that only read *)

Lemma keeps_ret {X A : Type} (proj : World -> X) (a : A) : keeps proj (ret a).
Proof. intros w. reflexivity. Qed.

Lemma keeps_throw {X A : Type} (proj : World -> X) (e : exn) : keeps proj (@throw A e).
Proof. intros w. reflexivity. Qed.

Lemma keeps_bind {X A C : Type} (proj : World -> X) (m : M A) (k : A -> M C) :
  keeps proj m -> (forall a, keeps proj (k a)) -> keeps proj (bind m k).
Proof.
  intros Hm Hk w. unfold bind. specialize (Hm w).
  destruct (m w) as [[e|a] w1]; simpl in *; [exact Hm|].
  now rewrite Hk.
Qed.

Lemma keeps_try_catch {X A : Type} (proj : World -> X) (m : M A) (h : exn -> M A) :
  keeps proj m -> (forall e, keeps proj (h e)) -> keeps proj (try_catch m h).
Proof.
  intros Hm Hh w. unfold try_catch. specialize (Hm w).
  destruct (m w) as [[e|a] w1]; simpl in *; [|exact Hm].
  now rewrite Hh.
Qed.

Lemma keeps_db_res_json (s : Z) (b : value) : keeps db (res_json s b).
Proof. intros w. reflexivity. Qed.

Lemma keeps_db_select_all (t : table_name) (ps : list value) :
  keeps db (query (SelectAll t) ps).
Proof. intros w. unfold query. destruct (faults w) as [|[|] fl]; reflexivity. Qed.

Lemma keeps_db_select_where (t : table_name) (c : string) (ps : list value) :
  keeps db (query (SelectWhere t c) ps).
Proof.
  intros w. unfold query.
  destruct (faults w) as [|[|] fl]; destruct ps; reflexivity.
Qed.

Lemma keeps_db_select_columns (t : table_name) (cs : list string) (ps : list value) :
  keeps db (query_more (SelectColumns t cs) ps).
Proof. intros w. unfold query_more. destruct (faults w) as [|[|] fl]; reflexivity. Qed.

Lemma keeps_db_select_join (ps : list value) :
  keeps db (query_more SelectCoursesJoin ps).
Proof. intros w. unfold query_more. destruct (faults w) as [|[|] fl]; reflexivity. Qed.

Lemma keeps_db_bcrypt_compare {B : Bcrypt} (a b : value) :
  keeps db (bcrypt_compare a b).
Proof. intros w. now destruct a, b. Qed.

Ltac keeps_steps :=
  repeat first
    [ apply keeps_db_res_json
    | apply keeps_db_select_all
    | apply keeps_db_select_where
    | apply keeps_db_select_columns
    | apply keeps_db_select_join
    | apply keeps_db_bcrypt_compare
    | apply keeps_try_catch; [|intros]
    | apply keeps_bind; [|intros]
    | match goal with
      | |- keeps _ (if ?c then _ else _) => destruct c
      | |- keeps _ (match ?x with _ => _ end) => destruct x
      end ].

(** X14.  Login and the five listing handlers never change a table,
    whatever the request and whatever the outcome. *)
Theorem readers_change_no_table {B : Bcrypt} (req : Request) :
  keeps db (login req) /\
  keeps db (listUsers req) /\
  keeps db (listInstitutions req) /\
  keeps db (listUniversities req) /\
  keeps db (listCourses req) /\
  keeps db (listFaculties req).
Proof.
  repeat split.
  - unfold login. keeps_steps.
  - unfold listUsers. keeps_steps.
  - unfold listInstitutions. keeps_steps.
  - unfold listUniversities. keeps_steps.
  - unfold listCourses. keeps_steps.
  - unfold listFaculties. keeps_steps.
Qed.

(** *** The catalogue *)







Lemma listCourses_run (req : Request) (w : World) :
  fault_at 0 w = false ->
  listCourses req w
  = (inr tt,
     mkWorld (db w) (tl (faults w)) (clock w) (entropy w) (disk w)
       (sent w ++ [mkResponse 200 (rows_json (courses_listing (db w)))])).
Proof.
  intros H0. unfold listCourses, try_catch, bind, query_more, fault_at in *.
  destruct w as [d fl ck en dk st]. cbn [faults] in *.
  destruct fl as [|[|] fl]; try discriminate; reflexivity.
Qed.




(** X17.  Deleting an institution leaves its courses in the table, and
    [GET /courses] no longer shows them: a course all of whose
    institutions have the deleted id is still stored after the DELETE,
    no institution is left for it to join, and every entry of the listing
    comes from a course joined with an institution that is left. *)
Theorem deleteInstitution_unlists_courses (req req' : Request) (c : Row) (w : World) :
  clear 2 w ->
  In c (rows (courses (db w))) ->
  (forall i, In i (rows (institutions (db w))) ->
     sql_eq (lookup "institution_id" c) (lookup "id" i) = true ->
     matches "id" (lookup "id" (params req)) i = true) ->
  let w1 := snd (deleteInstitution req w) in
  In c (rows (courses (db w1))) /\
  (forall i, In i (rows (institutions (db w1))) ->
     sql_eq (lookup "institution_id" c) (lookup "id" i) = false) /\
  exists entries,
    sent (snd (listCourses req' w1)) = sent w1 ++ [mkResponse 200 (VArr entries)] /\
    forall e, In e entries ->
      exists c' i,
        In c' (rows (courses (db w))) /\
        In i (rows (institutions (db w1))) /\
        sql_eq (lookup "institution_id" c') (lookup "id" i) = true /\
        e = VObj (course_listing c' i).
Proof.
  intros Hc Hin Hjoin w1.
  pose proof (deleteInstitution_run req w (clear_head _ _ Hc)) as Hrun. cbv zeta in Hrun.
  set (p := lookup "id" (params req)) in *.
  assert (Hdb : db w1 = db (after_delete p w)).
  { subst w1. rewrite Hrun. now destruct (Z.of_nat _ >? 0)%Z. }
  assert (Hfl : faults w1 = tl (faults w)).
  { subst w1. rewrite Hrun. now destruct (Z.of_nat _ >? 0)%Z. }
  assert (H1 : fault_at 0 w1 = false)
    by (apply (clear_tl 1 w w1 Hc Hfl); lia).
  rewrite (listCourses_run req' w1 H1). cbn [snd sent]. rewrite Hdb.
  split; [exact Hin|]. split.
  - cbn [after_delete db set_db set_table institutions rows].
    intros i Hi. apply filter_In in Hi as [Hi Hm].
    destruct (sql_eq (lookup "institution_id" c) (lookup "id" i)) eqn:E; [|reflexivity].
    rewrite (Hjoin i Hi E) in Hm. discriminate.
  - eexists. split; [reflexivity|].
    intros e He. apply in_map_iff in He as (r & <- & Hr).
    unfold courses_listing in Hr. apply in_flat_map in Hr as (c' & Hc' & Hr).
    unfold listed_for in Hr. apply in_map_iff in Hr as (i & <- & Hi).
    apply filter_In in Hi as [Hi Hq]. now exists c', i.
Qed.

Lemma deleteInstitution_unlists_courses_witness :
  let req := set_params [("id", VStr "5")] (delete_request 5) in
  let c := [("id", VNum 1); ("name", VStr "CS101"); ("faculty_id", VNum 1);
            ("institution_id", VNum 5)] in
  clear 2 small_catalogue /\
  In c (rows (courses (db small_catalogue))) /\
  In c (rows (courses (db (snd (deleteInstitution req small_catalogue))))) /\
  (forall i, In i (rows (institutions (db (snd (deleteInstitution req small_catalogue)))))
             -> sql_eq (lookup "institution_id" c) (lookup "id" i) = false).
Proof.
  intros req c.
  assert (Hc : clear 2 small_catalogue) by (intros [|[|i]] _; reflexivity).
  assert (Hin : In c (rows (courses (db small_catalogue)))) by (left; reflexivity).
  assert (Hj : forall i, In i (rows (institutions (db small_catalogue))) ->
                 sql_eq (lookup "institution_id" c) (lookup "id" i) = true ->
                 matches "id" (lookup "id" (params req)) i = true).
  { intros i [<-|[<-|[]]]; [reflexivity | discriminate]. }
  split; [exact Hc | split; [exact Hin |]].
  destruct (deleteInstitution_unlists_courses req (get_json "courses") c
              small_catalogue Hc Hin Hj) as (H1 & H2 & _).
  split; [exact H1 | exact H2].
Defined.

(** X18.  [GET /users] selects every column: on a connection that does
    not fail, the response holds each stored user with all its fields,
    the password hash among them. *)
Theorem listUsers_sends_password_hashes (req : Request) (w : World) :
  fault_at 0 w = false ->
  exists entries,
    sent (snd (listUsers req w)) = sent w ++ [mkResponse 200 (VArr entries)] /\
    List.length entries = List.length (rows (users (db w))) /\
    forall u, In u (rows (users (db w))) ->
              In (VObj u) entries /\
              field (VObj u) "password" = lookup "password" u.
Proof.
  intros H0. exists (map VObj (rows (users (db w)))).
  unfold listUsers, try_catch, bind. rewrite query_clear by exact H0.
  cbn [exec get_table result_rows snd res_json sent set_sent set_db set_faults].
  split; [reflexivity|]. split; [apply length_map|].
  intros u Hu. split; [now apply in_map | reflexivity].
Qed.

Lemma listUsers_sends_password_hashes_witness :
  let u := user_row 1 "A" "a@x.com" "$2b$10$0$pw" "student"
             "uploads/1700000000000_me.png" in
  fault_at 0 one_user = false /\
  exists entries,
    sent (snd (listUsers (get_json "users") one_user))
    = [mkResponse 200 (VArr entries)] /\
    In (VObj u) entries /\
    field (VObj u) "password" = VStr "$2b$10$0$pw".
Proof.
  intros u. split; [reflexivity|].
  destruct (listUsers_sends_password_hashes (get_json "users") one_user eq_refl)
    as (entries & Hs & _ & Hall).
  exists entries. split; [exact Hs|].
  destruct (Hall u (or_introl eq_refl)) as [Hin Hf]. split; [exact Hin | exact Hf].
Defined.

(** X19.  [GET /university] names its columns: the response has one
    entry per institution, each with exactly id, name and the three
    counts, in that order; the logo path is never sent. *)
Theorem listUniversities_omits_logo (req : Request) (w : World) :
  fault_at 0 w = false ->
  exists entries,
    sent (snd (listUniversities req w)) = sent w ++ [mkResponse 200 (VArr entries)] /\
    List.length entries = List.length (rows (institutions (db w))) /\
    Forall (fun e => exists fields,
                e = VObj fields /\ map fst fields = university_columns /\
                ~ In "logo" (map fst fields)) entries.
Proof.
  intros H0.
  exists (map VObj (map (project university_columns) (rows (institutions (db w))))).
  split; [|split].
  - unfold listUniversities, try_catch, bind, query_more, fault_at in *.
    destruct (faults w) as [|[|] fl]; try discriminate; reflexivity.
  - now rewrite !length_map.
  - rewrite Forall_forall. intros e He.
    apply in_map_iff in He as (fs & <- & Hfs).
    apply in_map_iff in Hfs as (r & <- & _).
    exists (project university_columns r). split; [reflexivity|].
    split; [reflexivity|].
    cbn. intros H. repeat (destruct H as [H|H]; [discriminate|]). exact H.
Qed.

Lemma listUniversities_omits_logo_witness :
  fault_at 0 small_catalogue = false /\
  exists entries,
    sent (snd (listUniversities (get_json "university") small_catalogue))
    = [mkResponse 200 (VArr entries)] /\
    List.length entries = 2.
Proof.
  split; [reflexivity|].
  destruct (listUniversities_omits_logo (get_json "university") small_catalogue eq_refl)
    as (entries & Hs & Hlen & _).
  exists entries. split; [exact Hs | exact Hlen].
Defined.



(** *** PUT /updateProfile/:id *)







Section Profile.
Context {B : Bcrypt}.


End Profile.


(** *** An institution, from creation to deletion *)



